(** * Nile camera client: scan-ingestion pipeline

    A shallow embedding of the client side of the ISBN scanning pipeline
    of nile-camera:

    - [ManualEntryModal.tsx]: [validateISBN] and [handleSubmit];
    - [services/textbookService.ts]: [loadTextbookISBNs], [isTextbook],
      [getBookType];
    - [services/api.ts]: [getScannerId] and [postScanToAPI];
    - [CameraScreen.tsx]: the debounce refs, [processScannedISBN],
      [onCodeScanned] and the modal handlers.

    JavaScript strings are sequences of UTF-16 code units, regular
    expressions are run by a small derivative matcher, [async] functions
    that can throw live in an exception monad, and the React component is
    a transition system on an explicit state record. *)

From Stdlib Require Import List PeanoNat NArith Bool Ascii String DecimalString QArith Lia.
From Stdlib Require DecimalPos DecimalN.
Import ListNotations.
Close Scope Q_scope.

(* ================================================================== *)
(** ** JavaScript strings and the regular expressions the client uses *)
(* ================================================================== *)

Module JS.

(** A JavaScript string is a sequence of UTF-16 code units; [length] of
    the list is the string's [.length]. *)
Definition code_unit := N.
Definition jsstring := list code_unit.

(** ASCII literal to JavaScript string. *)
Definition lit (s : string) : jsstring :=
  map N_of_ascii (list_ascii_of_string s).
Arguments lit s%_string.

(** [a === b] on strings. *)
Fixpoint streq (a b : jsstring) : bool :=
  match a, b with
  | [], [] => true
  | x :: a', y :: b' => N.eqb x y && streq a' b'
  | _, _ => false
  end.

(** Truthiness of a string value: every string but the empty one. *)
Definition truthy (s : jsstring) : bool :=
  match s with [] => false | _ :: _ => true end.

(** [a || b] on strings. *)
Definition or_else (a b : jsstring) : jsstring :=
  if truthy a then a else b.

(** Truthiness and [||] on an optional string property ([undefined]
    when absent). *)
Definition truthy_opt (o : option jsstring) : bool :=
  match o with Some s => truthy s | None => false end.

Definition opt_or_else (o : option jsstring) (b : jsstring) : jsstring :=
  match o with Some s => or_else s b | None => b end.

(** The [\s] class of ECMAScript (2016 and later): WhiteSpace and
    LineTerminator, that is TAB, LF, VT, FF, CR, SP, NBSP, U+1680,
    U+2000 to U+200A, U+2028, U+2029, U+202F, U+205F, U+3000 and
    U+FEFF.  [trim] strips the same set. *)
Definition is_whitespace (c : code_unit) : bool :=
  ((9 <=? c) && (c <=? 13) || (c =? 32) || (c =? 160) || (c =? 5760)
   || (8192 <=? c) && (c <=? 8202) || (c =? 8232) || (c =? 8233)
   || (c =? 8239) || (c =? 8287) || (c =? 12288) || (c =? 65279))%N.

(** The [\d] class: the ten ASCII digits. *)
Definition is_digit (c : code_unit) : bool := ((48 <=? c) && (c <=? 57))%N.

Definition hyphen : code_unit := 45%N.
Definition upper_X : code_unit := 88%N.
Definition lower_x : code_unit := 120%N.

(** Case mapping on the ASCII letters (other code units are left alone;
    under the [i] flag without [u] a code unit from 128 on never
    canonicalizes to an ASCII one, so for classes of ASCII members this
    is all that the flag can see). *)
Definition to_upper (c : code_unit) : code_unit :=
  if ((97 <=? c) && (c <=? 122))%N then (c - 32)%N else c.
Definition to_lower (c : code_unit) : code_unit :=
  if ((65 <=? c) && (c <=? 90))%N then (c + 32)%N else c.

(** A character class of ASCII members read under the [i] flag. *)
Definition ignore_case (p : code_unit -> bool) (c : code_unit) : bool :=
  p c || p (to_upper c) || p (to_lower c).

(** [String.prototype.trim]. *)
Fixpoint trim_start (s : jsstring) : jsstring :=
  match s with
  | c :: s' => if is_whitespace c then trim_start s' else s
  | [] => []
  end.

Definition trim_end (s : jsstring) : jsstring := rev (trim_start (rev s)).
Definition trim (s : jsstring) : jsstring := trim_end (trim_start s).

(** [s.replace(/[cls]/g, by)] for a one-character class. *)
Definition replace_class (cls : code_unit -> bool) (by_ : jsstring)
    (s : jsstring) : jsstring :=
  flat_map (fun c => if cls c then by_ else [c]) s.

(** [String.prototype.includes]. *)
Fixpoint starts_with (needle s : jsstring) : bool :=
  match needle, s with
  | [], _ => true
  | n :: needle', c :: s' => N.eqb n c && starts_with needle' s'
  | _ :: _, [] => false
  end.

Fixpoint includes (s needle : jsstring) : bool :=
  starts_with needle s ||
  match s with
  | [] => false
  | _ :: s' => includes s' needle
  end.

(** Regular expressions, matched by derivatives. *)
Inductive regex : Type :=
| Empty : regex
| Eps : regex
| Cls : (code_unit -> bool) -> regex
| Seq : regex -> regex -> regex
| Alt : regex -> regex -> regex
| Star : regex -> regex.

Definition Plus (r : regex) : regex := Seq r (Star r).

Fixpoint Repeat (n : nat) (r : regex) : regex :=
  match n with
  | O => Eps
  | S n' => Seq r (Repeat n' r)
  end.

Fixpoint nullable (r : regex) : bool :=
  match r with
  | Empty => false
  | Eps => true
  | Cls _ => false
  | Seq a b => nullable a && nullable b
  | Alt a b => nullable a || nullable b
  | Star _ => true
  end.

Fixpoint deriv (c : code_unit) (r : regex) : regex :=
  match r with
  | Empty => Empty
  | Eps => Empty
  | Cls p => if p c then Eps else Empty
  | Seq a b =>
      if nullable a then Alt (Seq (deriv c a) b) (deriv c b)
      else Seq (deriv c a) b
  | Alt a b => Alt (deriv c a) (deriv c b)
  | Star a => Seq (deriv c a) (Star a)
  end.

(** [/^r$/.test(s)]. *)
Fixpoint test (r : regex) (s : jsstring) : bool :=
  match s with
  | [] => nullable r
  | c :: s' => test (deriv c r) s'
  end.

(** The strings a regular expression denotes; [test] is checked against
    this relation below. *)
Inductive Matches : regex -> jsstring -> Prop :=
| MEps : Matches Eps []
| MCls : forall p c, p c = true -> Matches (Cls p) [c]
| MSeq : forall a b s1 s2,
    Matches a s1 -> Matches b s2 -> Matches (Seq a b) (s1 ++ s2)
| MAltL : forall a b s, Matches a s -> Matches (Alt a b) s
| MAltR : forall a b s, Matches b s -> Matches (Alt a b) s
| MStarNil : forall a, Matches (Star a) []
| MStarApp : forall a s1 s2,
    Matches a s1 -> Matches (Star a) s2 -> Matches (Star a) (s1 ++ s2).

(** Number to string, as a template literal prints a non-negative
    integer. *)
Definition of_number (n : N) : jsstring :=
  lit (NilZero.string_of_uint (N.to_uint n)).

End JS.

Import JS.

(* ================================================================== *)
(** ** ManualEntryModal.tsx *)
(* ================================================================== *)

Module ManualEntryModal.

(** The two [useState] cells of the modal. *)
Record ModalState : Type := mkModal { isbn : jsstring; error : jsstring }.

Definition setError (e : jsstring) (m : ModalState) : ModalState :=
  mkModal (isbn m) e.

(** [/[-\s]/]. *)
Definition separator (c : code_unit) : bool :=
  N.eqb c hyphen || is_whitespace c.

(** [value.replace(/[-\s]/g, '')]. *)
Definition clean (value : jsstring) : jsstring :=
  replace_class separator [] value.

(** [/^[\dX]+$/i]. *)
Definition digit_or_X (c : code_unit) : bool := is_digit c || N.eqb c upper_X.
Definition only_digits_or_X : regex := Plus (Cls (ignore_case digit_or_X)).

(** [validateISBN]: the boolean it returns and the modal after its
    [setError] call. *)
Definition validateISBN (value : jsstring) (m : ModalState)
    : bool * ModalState :=
  let cleanedISBN := clean value in
  if negb (Nat.eqb (List.length cleanedISBN) 10)
     && negb (Nat.eqb (List.length cleanedISBN) 13)
  then (false, setError (lit "ISBN must be 10 or 13 digits") m)
  else
    let isValidFormat := test only_digits_or_X cleanedISBN in
    if negb isValidFormat
    then (false, setError (lit "ISBN must contain only digits") m)
    else (true, setError [] m).

(** [handleSubmit]: the modal afterwards and the argument of [onSubmit]
    when it is called. *)
Definition handleSubmit (m : ModalState) : ModalState * option jsstring :=
  if negb (truthy (trim (isbn m)))
  then (setError (lit "Please enter an ISBN") m, None)
  else
    let '(ok, m1) := validateISBN (isbn m) m in
    if ok
    then (mkModal [] [], Some (clean (isbn m)))
    else (m1, None).

(** [onChangeText]. *)
Definition onChangeText (text : jsstring) (m : ModalState) : ModalState :=
  mkModal text [].

(** [handleClose] (its [onClose] call is the parent's business). *)
Definition handleClose (m : ModalState) : ModalState := mkModal [] [].

End ManualEntryModal.

(* ================================================================== *)
(** ** The validator as section 4.1 of the specification words it *)
(* ================================================================== *)

Module Spec.

(** [^[0-9]{9}[0-9Xx]$] *)
Definition digit_X_x (c : code_unit) : bool :=
  is_digit c || N.eqb c upper_X || N.eqb c lower_x.
Definition isbn10 : regex := Seq (Repeat 9 (Cls is_digit)) (Cls digit_X_x).

(** [^[0-9]{13}$] *)
Definition isbn13 : regex := Repeat 13 (Cls is_digit).

(** Strip whitespace and hyphens; accept iff the result is exactly 10
    characters matching the first pattern or exactly 13 matching the
    second; the output is the stripped code in upper case. *)
Definition validate (raw : jsstring) : option jsstring :=
  let stripped := ManualEntryModal.clean raw in
  if Nat.eqb (List.length stripped) 10 && test isbn10 stripped
     || Nat.eqb (List.length stripped) 13 && test isbn13 stripped
  then Some (map to_upper stripped)
  else None.

End Spec.

(* ================================================================== *)
(** ** services/textbookService.ts *)
(* ================================================================== *)

Module TextbookService.

(** The module-level variables.  The [Set<string>] is only built once
    and queried with [has], so a list of its members stands for it. *)
Record Store : Type := mkStore {
  textbookISBNs : list jsstring;
  isLoaded : bool
}.

Definition initial : Store := mkStore [] false.

Definition has (set : list jsstring) (x : jsstring) : bool :=
  existsb (streq x) set.

(** [loadTextbookISBNs]; [data] is the [isbns] property of the bundled
    [assets/textbook-isbns.json] ([None] when the property is missing).
    Nothing in its [try] block throws on such data, so the [catch] block
    that falls back to an empty set has no case here. *)
Definition loadTextbookISBNs (data : option (list jsstring)) (st : Store)
    : Store :=
  if isLoaded st then st
  else
    let isbns := match data with Some l => l | None => [] end in
    mkStore (map trim isbns) true.

Definition isTextbook (st : Store) (isbn : jsstring) : bool :=
  if negb (isLoaded st) then false
  else
    let normalizedISBN := replace_class ManualEntryModal.separator [] isbn in
    has (textbookISBNs st) normalizedISBN.

Inductive BookType : Type := textbook | other.

Definition getBookType (st : Store) (isbn : jsstring) : BookType :=
  if isTextbook st isbn then textbook else other.

End TextbookService.

(* ================================================================== *)
(** ** types/Book.ts and services/api.ts *)
(* ================================================================== *)

Module Api.

(** JSON numbers; the client never computes with them. *)
Definition number := Q.

Record BookData : Type := mkBook {
  book_isbn : jsstring;
  title : jsstring;
  subtitle : option jsstring;
  authors : list jsstring;
  publisher : option jsstring;
  published_date : option jsstring;
  description : option jsstring;
  page_count : option number;
  categories : option (list jsstring);
  language : option jsstring;
  thumbnail_url : option jsstring;
  small_thumbnail_url : option jsstring;
  average_rating : option number;
  ratings_count : option number;
  quantity_available : option number;
  scan_count : option number;
  first_scanned_at : option jsstring;
  last_scanned_at : option jsstring
}.

(** A property of type [BookData | null] that may be missing:
    [None] is [undefined], [Some None] is [null]. *)
Definition book_prop := option (option BookData).

(** [book || null]. *)
Definition book_or_null (b : book_prop) : option BookData :=
  match b with Some (Some x) => Some x | _ => None end.

Record ScanResponse : Type := mkResponse {
  success : bool;
  scan_id : option jsstring;
  book : book_prop;
  warning : option jsstring;
  error : option jsstring;
  code : option jsstring;
  details : option jsstring
}.

Record ScanResult : Type := mkResult {
  result_success : bool;
  message : option jsstring;
  result_book : book_prop
}.

(** What a [throw] carries: an [Error] object of some class with its
    message, or a value that is not an [Error]. *)
Inductive ErrorClass : Type := TypeError | SyntaxError | OtherError.

Inductive Thrown : Type :=
| ErrorObject : ErrorClass -> jsstring -> Thrown
| NotAnError : Thrown.

Definition instanceof_TypeError (e : Thrown) : bool :=
  match e with ErrorObject TypeError _ => true | _ => false end.

Definition instanceof_Error (e : Thrown) : bool :=
  match e with ErrorObject _ _ => true | NotAnError => false end.

Definition error_message (e : Thrown) : jsstring :=
  match e with ErrorObject _ m => m | NotAnError => [] end.

(** Outcome of an awaited call: it returns or it throws. *)
Inductive completion (A : Type) : Type :=
| Returns : A -> completion A
| Throws : Thrown -> completion A.
Arguments Returns {A} _.
Arguments Throws {A} _.

Definition bind {A B} (c : completion A) (k : A -> completion B)
    : completion B :=
  match c with
  | Returns a => k a
  | Throws e => Throws e
  end.

Definition try_catch {A} (body : completion A)
    (handler : Thrown -> completion A) : completion A :=
  match body with
  | Returns a => Returns a
  | Throws e => handler e
  end.

Notation "'await' x <- c ; k" := (bind c (fun x => k))
  (at level 10, x name, c at level 100, k at level 200).

(** The request handed to [fetch] (the body before [JSON.stringify]). *)
Record RequestBody : Type := mkBody { req_isbn : jsstring; scanner_id : jsstring }.
Record Request : Type := mkRequest {
  url : jsstring;
  method : jsstring;
  content_type : jsstring;
  body : RequestBody
}.

(** The parts of a fetch [Response] the client reads.  [json] is the
    outcome of [await response.json()] read at the declared type
    [ScanResponse]; a body that is not JSON throws there, and so, for
    the client, does a body that parses to [null], whose first property
    access throws inside the same [try] block. *)
Record Response : Type := mkHttp {
  ok : bool;
  statusText : jsstring;
  json : completion ScanResponse
}.

(** Everything outside the client that one call depends on. *)
Record Env : Type := mkEnv {
  getUniqueId : completion jsstring;      (* DeviceInfo.getUniqueId() *)
  Date_now : N;                           (* Date.now() *)
  API_URL : jsstring;                     (* from the .env file *)
  fetch : Request -> completion Response
}.

(** config/supabase.ts: [API_CONFIG]. *)
Definition baseUrl (env : Env) : jsstring :=
  or_else (API_URL env) (lit "https://nile-webapp.vercel.app").
Definition endpoints_scan : jsstring := lit "/api/scan".
Definition getUrl (env : Env) (endpoint : jsstring) : jsstring :=
  baseUrl env ++ endpoint.

Definition getScannerId (env : Env) : completion jsstring :=
  try_catch
    (await deviceId <- getUniqueId env;
     Returns deviceId)
    (fun _ => Returns (lit "scanner-" ++ of_number (Date_now env))).

Definition msg_invalid_isbn : jsstring :=
  lit "This barcode is not a valid ISBN. Please scan a book's ISBN barcode.".
Definition msg_missing_isbn : jsstring := lit "ISBN is required".
Definition msg_server_error (statusText : jsstring) : jsstring :=
  lit "Server error: " ++ statusText.
Definition msg_saved : jsstring := lit "Scan saved successfully!".
Definition msg_unknown : jsstring := lit "Unknown error occurred".
Definition msg_network : jsstring :=
  lit "Network error. Please check your internet connection and try again.".

Definition code_is (data : ScanResponse) (c : jsstring) : bool :=
  match code data with Some x => streq x c | None => false end.

(** The [try] block of [postScanToAPI] once the response is parsed:
    from the status check down to the fallback error. *)
Definition interpret (response : Response) (data : ScanResponse)
    : completion ScanResult :=
  if negb (ok response) then
    if code_is data (lit "INVALID_ISBN") then
      Returns (mkResult false (Some msg_invalid_isbn) None)
    else if code_is data (lit "MISSING_ISBN") then
      Returns (mkResult false (Some msg_missing_isbn) None)
    else
      Returns (mkResult false
                 (Some (opt_or_else (error data)
                          (msg_server_error (statusText response))))
                 None)
  else if success data then
    if truthy_opt (warning data) then
      Returns (mkResult true (warning data) (Some None))
    else
      Returns (mkResult true (Some msg_saved)
                 (Some (book_or_null (book data))))
  else
    Returns (mkResult false (Some (opt_or_else (error data) msg_unknown))
               None).

(** The [try] block of [postScanToAPI]. *)
Definition postScanToAPI_try (env : Env) (isbn : jsstring)
    : completion ScanResult :=
  await scannerId <- getScannerId env;
  let requestBody := mkBody isbn scannerId in
  let apiUrl := getUrl env endpoints_scan in
  await response <-
    fetch env (mkRequest apiUrl (lit "POST") (lit "application/json")
                         requestBody);
  await data <- json response;
  interpret response data.

(** The [catch] block of [postScanToAPI]. *)
Definition postScanToAPI_catch (e : Thrown) : completion ScanResult :=
  if instanceof_TypeError e
     && includes (error_message e) (lit "Network request failed")
  then Returns (mkResult false (Some msg_network) None)
  else
    Returns (mkResult false
               (Some (if instanceof_Error e then error_message e
                      else msg_unknown))
               None).

Definition postScanToAPI (env : Env) (isbn : jsstring)
    : completion ScanResult :=
  try_catch (postScanToAPI_try env isbn) postScanToAPI_catch.

Definition postScanToSupabase := postScanToAPI.

(** The scanner id one call ends up with and the request it sends;
    checked against [getScannerId] and [postScanToAPI] below. *)
Definition scanner_id_of (env : Env) : jsstring :=
  match getUniqueId env with
  | Returns deviceId => deviceId
  | Throws _ => lit "scanner-" ++ of_number (Date_now env)
  end.

Definition request_of (env : Env) (isbn : jsstring) : Request :=
  mkRequest (baseUrl env ++ lit "/api/scan") (lit "POST")
            (lit "application/json") (mkBody isbn (scanner_id_of env)).

(** The server answered: [fetch] resolved with [response] and its
    [json()] with [data]. *)
Definition answered (env : Env) (isbn : jsstring) (response : Response)
    (data : ScanResponse) : Prop :=
  fetch env (request_of env isbn) = Returns response
  /\ json response = Returns data.

(** The call threw inside [fetch] or inside [response.json()]. *)
Definition transport_throws (env : Env) (isbn : jsstring) (e : Thrown)
    : Prop :=
  fetch env (request_of env isbn) = Throws e
  \/ exists response,
       fetch env (request_of env isbn) = Returns response
       /\ json response = Throws e.

End Api.

(* ================================================================== *)
(** ** components/CameraScreen.tsx *)
(* ================================================================== *)

Module CameraScreen.

Import TextbookService Api.

(** The [useState] cells. *)
Record Ui : Type := mkUi {
  isActive : bool;
  scannedISBN : option jsstring;
  bookType : BookType;
  showConfirmModal : bool;
  showManualEntry : bool;
  isLoading : bool;
  scanSuccess : bool;
  scanMessage : jsstring;
  scannedBook : option BookData;
  scanCount : nat
}.

(** The [useRef] cells of the debounce mechanism. *)
Record Refs : Type := mkRefs {
  lastScannedISBN : jsstring;
  isProcessing : bool;
  scanDebounceTimer : option nat
}.

(** The JavaScript runtime as far as the component uses it: the clock
    (in ms), the pending timers (identifier and due time; every timer
    the component sets has the same callback, which empties
    [lastScannedISBN]), the next timer identifier, and the calls of
    [postScanToSupabase] that have been started and not yet settled. *)
Record Runtime : Type := mkRuntime {
  clock : N;
  timers : list (nat * N);
  next_timer : nat;
  in_flight : list jsstring
}.

Record State : Type := mkState {
  ui : Ui;
  refs : Refs;
  runtime : Runtime;
  modal : ManualEntryModal.ModalState;
  textbooks : TextbookService.Store
}.

Definition DEBOUNCE_DELAY : N := 2000.

Definition initial : State :=
  mkState
    (mkUi true None other false false false false [] None 0)
    (mkRefs [] false None)
    (mkRuntime 0 [] 1 [])
    (ManualEntryModal.mkModal [] [])
    TextbookService.initial.

(** [setTimeout] and [clearTimeout]. *)
Definition setTimeout (delay : N) (rt : Runtime) : nat * Runtime :=
  (next_timer rt,
   mkRuntime (clock rt) ((next_timer rt, (clock rt + delay)%N) :: timers rt)
             (S (next_timer rt)) (in_flight rt)).

Definition remove_timer (id : nat) (l : list (nat * N)) : list (nat * N) :=
  filter (fun t => negb (Nat.eqb (fst t) id)) l.

Definition clearTimeout (id : nat) (rt : Runtime) : Runtime :=
  mkRuntime (clock rt) (remove_timer id (timers rt)) (next_timer rt)
            (in_flight rt).

Definition start_call (isbn : jsstring) (rt : Runtime) : Runtime :=
  mkRuntime (clock rt) (timers rt) (next_timer rt) (isbn :: in_flight rt).

(** The state setters. *)
Definition setIsActive (v : bool) (u : Ui) : Ui :=
  mkUi v (scannedISBN u) (bookType u) (showConfirmModal u)
       (showManualEntry u) (isLoading u) (scanSuccess u) (scanMessage u)
       (scannedBook u) (scanCount u).
Definition setScannedISBN (v : option jsstring) (u : Ui) : Ui :=
  mkUi (isActive u) v (bookType u) (showConfirmModal u)
       (showManualEntry u) (isLoading u) (scanSuccess u) (scanMessage u)
       (scannedBook u) (scanCount u).
Definition setBookType (v : BookType) (u : Ui) : Ui :=
  mkUi (isActive u) (scannedISBN u) v (showConfirmModal u)
       (showManualEntry u) (isLoading u) (scanSuccess u) (scanMessage u)
       (scannedBook u) (scanCount u).
Definition setShowConfirmModal (v : bool) (u : Ui) : Ui :=
  mkUi (isActive u) (scannedISBN u) (bookType u) v
       (showManualEntry u) (isLoading u) (scanSuccess u) (scanMessage u)
       (scannedBook u) (scanCount u).
Definition setShowManualEntry (v : bool) (u : Ui) : Ui :=
  mkUi (isActive u) (scannedISBN u) (bookType u) (showConfirmModal u)
       v (isLoading u) (scanSuccess u) (scanMessage u)
       (scannedBook u) (scanCount u).
Definition setIsLoading (v : bool) (u : Ui) : Ui :=
  mkUi (isActive u) (scannedISBN u) (bookType u) (showConfirmModal u)
       (showManualEntry u) v (scanSuccess u) (scanMessage u)
       (scannedBook u) (scanCount u).
Definition setScanSuccess (v : bool) (u : Ui) : Ui :=
  mkUi (isActive u) (scannedISBN u) (bookType u) (showConfirmModal u)
       (showManualEntry u) (isLoading u) v (scanMessage u)
       (scannedBook u) (scanCount u).
Definition setScanMessage (v : jsstring) (u : Ui) : Ui :=
  mkUi (isActive u) (scannedISBN u) (bookType u) (showConfirmModal u)
       (showManualEntry u) (isLoading u) (scanSuccess u) v
       (scannedBook u) (scanCount u).
Definition setScannedBook (v : option BookData) (u : Ui) : Ui :=
  mkUi (isActive u) (scannedISBN u) (bookType u) (showConfirmModal u)
       (showManualEntry u) (isLoading u) (scanSuccess u) (scanMessage u)
       v (scanCount u).
Definition setScanCount (f : nat -> nat) (u : Ui) : Ui :=
  mkUi (isActive u) (scannedISBN u) (bookType u) (showConfirmModal u)
       (showManualEntry u) (isLoading u) (scanSuccess u) (scanMessage u)
       (scannedBook u) (f (scanCount u)).

Definition set_ui (u : Ui) (s : State) : State :=
  mkState u (refs s) (runtime s) (modal s) (textbooks s).

(** [processScannedISBN] up to its [await]: the guard, the refs, the
    timer, the state setters and the call of [postScanToSupabase]. *)
Definition processScannedISBN (isbn : jsstring) (s : State) : State :=
  if isProcessing (refs s) || streq isbn (lastScannedISBN (refs s))
  then s
  else
    let rt0 :=
      match scanDebounceTimer (refs s) with
      | Some id => clearTimeout id (runtime s)
      | None => runtime s
      end in
    let '(id, rt1) := setTimeout DEBOUNCE_DELAY rt0 in
    let type := getBookType (textbooks s) isbn in
    let u :=
      setShowConfirmModal true
        (setBookType type
           (setScannedISBN (Some isbn)
              (setIsLoading true (setIsActive false (ui s))))) in
    mkState u (mkRefs isbn true (Some id)) (start_call isbn rt1)
            (modal s) (textbooks s).

(** The [try] block of [processScannedISBN] after its [await]. *)
Definition on_result (result : ScanResult) (u : Ui) : Ui :=
  let u1 :=
    setScannedBook (book_or_null (result_book result))
      (setScanMessage (opt_or_else (message result) [])
         (setScanSuccess (result_success result) u)) in
  if result_success result
  then setScanCount (fun prev => prev + 1) u1
  else u1.

(** Its [catch] block. *)
Definition on_error (u : Ui) : Ui :=
  setScannedBook None
    (setScanMessage (lit "Failed to save scan.") (setScanSuccess false u)).

(** Its [finally] block. *)
Definition finally_block (s : State) : State :=
  mkState (setIsLoading false (ui s))
          (mkRefs (lastScannedISBN (refs s)) false
                  (scanDebounceTimer (refs s)))
          (runtime s) (modal s) (textbooks s).

(** [processScannedISBN] from its [await] on, given how the awaited
    call settled. *)
Definition processScannedISBN_settled (outcome : completion ScanResult)
    (s : State) : State :=
  finally_block
    (set_ui match outcome with
            | Returns result => on_result result (ui s)
            | Throws _ => on_error (ui s)
            end s).

(** The callback of the debounce timer. *)
Definition debounce_timeout (s : State) : State :=
  mkState (ui s)
    (mkRefs [] (isProcessing (refs s)) (scanDebounceTimer (refs s)))
    (runtime s) (modal s) (textbooks s).

(** A detected barcode.  [onCodeScanned] reads [isActive] as the
    current value of the state cell. *)
Record Code : Type := mkCode { value : option jsstring; type : jsstring }.

Definition onCodeScanned (codes : list Code) (s : State) : State :=
  if negb (isActive (ui s)) || Nat.eqb (List.length codes) 0 then s
  else
    match codes with
    | [] => s
    | code :: _ =>
        match value code with
        | Some v => if truthy v then processScannedISBN v s else s
        | None => s
        end
    end.

Definition handleCloseModal (s : State) : State :=
  set_ui (setIsActive true
            (setScannedBook None
               (setScanMessage []
                  (setScannedISBN None
                     (setShowConfirmModal false (ui s)))))) s.

Definition handleOpenManualEntry (s : State) : State :=
  set_ui (setShowManualEntry true (setIsActive false (ui s))) s.

Definition handleManualSubmit (isbn : jsstring) (s : State) : State :=
  processScannedISBN isbn (set_ui (setShowManualEntry false (ui s)) s).

Definition handleCloseManualEntry (s : State) : State :=
  set_ui (setIsActive true (setShowManualEntry false (ui s))) s.

Definition set_modal (m : ManualEntryModal.ModalState) (s : State) : State :=
  mkState (ui s) (refs s) (runtime s) m (textbooks s).

(** The Submit button of the manual entry modal. *)
Definition manual_submit (s : State) : State :=
  let '(m, submitted) := ManualEntryModal.handleSubmit (modal s) in
  match submitted with
  | Some isbn => set_modal m (handleManualSubmit isbn s)
  | None => set_modal m s
  end.

(** The Cancel button (or the backdrop) of the manual entry modal. *)
Definition manual_close (s : State) : State :=
  set_modal (ManualEntryModal.handleClose (modal s))
            (handleCloseManualEntry s).

(** What can happen to a mounted camera screen. *)
Inductive Event : Type :=
| TextbooksLoaded (data : option (list jsstring))
| CodesDetected (codes : list Code)
| ConfirmationClosed
| ManualEntryOpened
| ManualTextChanged (text : jsstring)
| ManualSubmitPressed
| ManualEntryClosed
| TimePasses (ms : N)
| TimerFires (id : nat)
| SubmissionSettles (isbn : jsstring) (env : Env).

Fixpoint remove_first (x : jsstring) (l : list jsstring) : list jsstring :=
  match l with
  | [] => []
  | y :: l' => if streq x y then l' else y :: remove_first x l'
  end.

Definition awaited (isbn : jsstring) (rt : Runtime) : bool :=
  existsb (streq isbn) (in_flight rt).

Definition timer_due (id : nat) (rt : Runtime) : bool :=
  existsb (fun t => Nat.eqb (fst t) id && (snd t <=? clock rt)%N) (timers rt).

Definition set_runtime (rt : Runtime) (s : State) : State :=
  mkState (ui s) (refs s) rt (modal s) (textbooks s).

(** One event; [None] when the event cannot happen in this state (a
    timer that is not pending or not yet due, a call that was never
    started). *)
Definition step (e : Event) (s : State) : option State :=
  match e with
  | TextbooksLoaded data =>
      Some (mkState (ui s) (refs s) (runtime s) (modal s)
                    (loadTextbookISBNs data (textbooks s)))
  | CodesDetected codes => Some (onCodeScanned codes s)
  | ConfirmationClosed => Some (handleCloseModal s)
  | ManualEntryOpened => Some (handleOpenManualEntry s)
  | ManualTextChanged text =>
      Some (set_modal (ManualEntryModal.onChangeText text (modal s)) s)
  | ManualSubmitPressed => Some (manual_submit s)
  | ManualEntryClosed => Some (manual_close s)
  | TimePasses ms =>
      let rt := runtime s in
      Some (set_runtime
              (mkRuntime (clock rt + ms)%N (timers rt) (next_timer rt)
                         (in_flight rt)) s)
  | TimerFires id =>
      if timer_due id (runtime s)
      then Some (debounce_timeout
                   (set_runtime (clearTimeout id (runtime s)) s))
      else None
  | SubmissionSettles isbn env =>
      if awaited isbn (runtime s)
      then
        let rt := runtime s in
        Some (processScannedISBN_settled (postScanToSupabase env isbn)
                (set_runtime
                   (mkRuntime (clock rt) (timers rt) (next_timer rt)
                              (remove_first isbn (in_flight rt))) s))
      else None
  end.

Fixpoint run (trace : list Event) (s : State) : option State :=
  match trace with
  | [] => Some s
  | e :: trace' =>
      match step e s with
      | Some s' => run trace' s'
      | None => None
      end
  end.

Definition reachable (s : State) : Prop :=
  exists trace, run trace initial = Some s.

(** [isbn] is handed to [postScanToSupabase] between [s] and [s']. *)
Definition submits (isbn : jsstring) (s s' : State) : Prop :=
  in_flight (runtime s') = isbn :: in_flight (runtime s).

(** By how much a settled call is expected to move [scanCount]. *)
Definition counted (outcome : completion ScanResult) : nat :=
  match outcome with
  | Returns result => if result_success result then 1 else 0
  | Throws _ => 0
  end.

(** The invariant of the debounce mechanism: the busy flag tells
    whether a call is in flight, and the only timer that can be pending
    is the one [scanDebounceTimer] holds. *)
Definition debounce_invariant (s : State) : Prop :=
  List.length (in_flight (runtime s))
  = (if isProcessing (refs s) then 1 else 0)
  /\ (timers (runtime s) = []
      \/ exists id due,
           timers (runtime s) = [(id, due)]
           /\ scanDebounceTimer (refs s) = Some id).

End CameraScreen.

(* ================================================================== *)
(** ** Sample inputs *)
(* ================================================================== *)

Module Samples.

Import Api CameraScreen.

Definition sample_isbn : jsstring := lit "9780134670942".
Definition other_isbn : jsstring := lit "9780262033848".

Definition sample_book : BookData :=
  mkBook sample_isbn (lit "Effective Java") None [lit "Joshua Bloch"]
         (Some (lit "Addison-Wesley")) (Some (lit "2018")) None None None
         (Some (lit "en")) None None None None None None None None.

(** A device with identifier [dev-1] whose every request is answered
    with [response]. *)
Definition answering (response : Response) : Env :=
  mkEnv (Returns (lit "dev-1")) 0 [] (fun _ => Returns response).

(** The same device when [fetch] itself throws [e]. *)
Definition failing (e : Thrown) : Env :=
  mkEnv (Returns (lit "dev-1")) 0 [] (fun _ => Throws e).

(** Answers of the server. *)
Definition with_warning (w : jsstring) : ScanResponse :=
  mkResponse true (Some (lit "scan-1")) (Some (Some sample_book)) (Some w)
             None None None.
Definition ok_response (data : ScanResponse) : Response :=
  mkHttp true (lit "OK") (Returns data).
Definition no_error_body : ScanResponse :=
  mkResponse false None None None None None None.
Definition empty_error_body : ScanResponse :=
  mkResponse false None None None (Some []) None None.
Definition invalid_isbn_body : ScanResponse :=
  mkResponse false None None None (Some (lit "Invalid ISBN format"))
             (Some (lit "INVALID_ISBN")) None.
Definition not_json : Thrown :=
  ErrorObject SyntaxError (lit "JSON Parse error: Unexpected token: <").
Definition no_network : Thrown :=
  ErrorObject TypeError (lit "Network request failed").

(** Barcodes in front of the camera. *)
Definition first_scan : Code := mkCode (Some sample_isbn) (lit "ean-13").
Definition second_scan : Code := mkCode (Some other_isbn) (lit "ean-13").
Definition ean8_scan : Code := mkCode (Some (lit "96385074")) (lit "ean-8").
Definition code128_scan : Code :=
  mkCode (Some (lit "978-0-13-467094-2")) (lit "code-128").

(** A scan, the confirmation sheet dismissed by its backdrop while the
    request is pending, and the debounce window running out. *)
Definition slow_network : list Event :=
  [CodesDetected [first_scan]; ConfirmationClosed; TimePasses 2000;
   TimerFires 1].

(** Idle, half a second into the debounce window of [sample_isbn]. *)
Definition idle_in_window : State :=
  mkState (ui initial) (mkRefs sample_isbn false (Some 1))
          (mkRuntime 500 [(1, 2000%N)] 2 []) (modal initial)
          (textbooks initial).

(** The manual entry sheet with a hyphenated ISBN typed in. *)
Definition typed (text : jsstring) : State :=
  set_modal (ManualEntryModal.mkModal text []) initial.

End Samples.


(* ================================================================== *)
(** ** Sessions of the camera screen *)
(* ================================================================== *)

Module Sessions.

Import Api CameraScreen.

(** The number a string of decimal digits writes. *)
Definition digits_value (s : jsstring) : N :=
  fold_left (fun acc c => (acc * 10 + (c - 48))%N) s 0%N.

(** The code an event hands to [processScannedISBN], if any: the value
    of the first barcode when the camera is active and the value is not
    empty, the code the manual entry sheet submits. *)
Definition handed_over (e : Event) (s : State) : option jsstring :=
  match e with
  | CodesDetected codes =>
      if negb (isActive (ui s)) then None
      else
        match codes with
        | [] => None
        | code :: _ =>
            match value code with
            | Some v => if truthy v then Some v else None
            | None => None
            end
        end
  | ManualSubmitPressed => snd (ManualEntryModal.handleSubmit (modal s))
  | _ => None
  end.

(** Along [trace] from [s], no code but [c] is handed over. *)
Fixpoint no_other_code (c : jsstring) (trace : list Event) (s : State)
    : bool :=
  match trace with
  | [] => true
  | e :: trace' =>
      match handed_over e s with
      | Some v => streq v c
      | None => true
      end
      && match step e s with
         | Some s' => no_other_code c trace' s'
         | None => true
         end
  end.

(** The settled calls of a trace whose result has [success] true. *)
Fixpoint successes (trace : list Event) : nat :=
  match trace with
  | [] => 0
  | SubmissionSettles isbn env :: trace' =>
      counted (postScanToSupabase env isbn) + successes trace'
  | _ :: trace' => successes trace'
  end.

(** What the screen keeps true besides [debounce_invariant]: the
    spinner follows the busy flag, a remembered code has its timer, a
    pending timer is one that [setTimeout] handed out and is due within
    the debounce delay, and a code in flight is the remembered one
    unless the timer has already forgotten it. *)
Definition screen_invariant (s : State) : Prop :=
  isLoading (ui s) = isProcessing (refs s)
  /\ (timers (runtime s) = [] -> lastScannedISBN (refs s) = [])
  /\ (forall id due,
        In (id, due) (timers (runtime s)) ->
        id < next_timer (runtime s)
        /\ (due <= clock (runtime s) + DEBOUNCE_DELAY)%N)
  /\ (forall isbn,
        In isbn (in_flight (runtime s)) ->
        lastScannedISBN (refs s) = isbn \/ lastScannedISBN (refs s) = []).

(** The window of a code accepted at time [t] with timer [id]: until
    2000 ms have passed the code is remembered and its timer is the one
    pending. *)
Definition window_open (c : jsstring) (id : nat) (t : N) (s : State) : Prop :=
  (t <= clock (runtime s))%N
  /\ ((clock (runtime s) < t + 2000)%N ->
      lastScannedISBN (refs s) = c
      /\ timers (runtime s) = [(id, (t + 2000)%N)]).

(** A scan whose call settles with a warning. *)
Definition warned_session : list Event :=
  [CodesDetected [Samples.first_scan];
   SubmissionSettles Samples.sample_isbn
     (Samples.answering
        (Samples.ok_response
           (Samples.with_warning (lit "Book metadata not found"))))].

(** After a scan: its call settles with a network failure, and the
    window runs with the barcode still in front of the camera, an empty
    detection and a refused manual entry along the way. *)
Definition failed_then_rescan : list Event :=
  [SubmissionSettles Samples.sample_isbn
     (Samples.failing Samples.no_network);
   ConfirmationClosed; CodesDetected [Samples.first_scan];
   CodesDetected []; TimePasses 1000; ManualEntryOpened;
   ManualTextChanged (lit "123"); ManualSubmitPressed; ManualEntryClosed;
   CodesDetected [Samples.first_scan]; TimePasses 999].

End Sessions.

(* ================================================================== *)
(** * Facts about strings and regular expressions *)
(* ================================================================== *)

Section StringFacts.

Lemma streq_refl (a : jsstring) : streq a a = true.
Proof.
  induction a as [|x a IH]; simpl; [reflexivity|].
  now rewrite N.eqb_refl, IH.
Qed.

Lemma streq_eq (a b : jsstring) : streq a b = true <-> a = b.
Proof.
  split.
  - revert b; induction a as [|x a IH]; intros [|y b] H; simpl in H;
      try discriminate; [reflexivity|].
    apply andb_true_iff in H as [Hx Hab].
    apply N.eqb_eq in Hx. f_equal; auto.
  - intros ->. apply streq_refl.
Qed.

Lemma streq_neq (a b : jsstring) : streq a b = false <-> a <> b.
Proof.
  rewrite <- streq_eq. destruct (streq a b); split; intro H;
    congruence.
Qed.

Lemma trim_start_nil (s : jsstring) :
  trim_start s = [] <-> forallb is_whitespace s = true.
Proof.
  induction s as [|c s IH]; simpl; [tauto|].
  destruct (is_whitespace c); simpl; [exact IH|].
  split; discriminate.
Qed.

Lemma trim_start_forallb (s : jsstring) :
  forallb is_whitespace (trim_start s) = true ->
  forallb is_whitespace s = true.
Proof.
  induction s as [|c s IH]; simpl; [auto|].
  destruct (is_whitespace c) eqn:E; simpl; [exact IH|].
  rewrite E. discriminate.
Qed.

Lemma forallb_rev (p : code_unit -> bool) (s : jsstring) :
  forallb p (rev s) = forallb p s.
Proof.
  induction s as [|c s IH]; simpl; [reflexivity|].
  rewrite forallb_app, IH. simpl. rewrite andb_true_r. apply andb_comm.
Qed.

(** [trim] leaves nothing exactly when the string is all whitespace. *)
Lemma trim_nil (s : jsstring) :
  trim s = [] <-> forallb is_whitespace s = true.
Proof.
  unfold trim, trim_end. split.
  - intro H. apply trim_start_forallb.
    rewrite <- forallb_rev. apply trim_start_nil.
    destruct (trim_start (rev (trim_start s))) as [|x l] eqn:E;
      [reflexivity|].
    simpl in H. destruct (rev l); discriminate.
  - intro H. apply trim_start_nil in H. rewrite H. reflexivity.
Qed.

End StringFacts.

Section RegexFacts.

Lemma nullable_spec (r : regex) : nullable r = true <-> Matches r [].
Proof.
  induction r as [| |p|a IHa b IHb|a IHa b IHb|a IHa]; simpl.
  - split; [discriminate | inversion 1].
  - split; [constructor | reflexivity].
  - split; [discriminate | inversion 1].
  - rewrite andb_true_iff, IHa, IHb. split.
    + intros [Ha Hb]. exact (MSeq _ _ _ _ Ha Hb).
    + intro H. inversion H as [| |a' b' s1 s2 Ha Hb Hr Heq| | | |]; subst.
      apply app_eq_nil in Heq as [-> ->]. auto.
  - rewrite orb_true_iff, IHa, IHb. split.
    + intros [H|H]; [now apply MAltL | now apply MAltR].
    + inversion 1; subst; auto.
  - split; [constructor | reflexivity].
Qed.

Lemma star_cons (a : regex) (c : code_unit) (s : jsstring) :
  Matches (Star a) (c :: s) ->
  exists s1 s2, s = s1 ++ s2 /\ Matches a (c :: s1) /\ Matches (Star a) s2.
Proof.
  intro H. remember (Star a) as r eqn:Er. remember (c :: s) as w eqn:Ew.
  revert s Ew.
  induction H as [| | | | | |a' s1 s2 H1 _ H2 IH2]; try discriminate.
  injection Er as ->. intros s Ew.
  destruct s1 as [|x s1]; simpl in Ew.
  - apply IH2; auto.
  - injection Ew as -> <-. exists s1, s2. auto.
Qed.

Lemma deriv_spec (c : code_unit) (r : regex) :
  forall s, Matches (deriv c r) s <-> Matches r (c :: s).
Proof.
  induction r as [| |p|a IHa b IHb|a IHa b IHb|a IHa]; intro s; simpl.
  - split; inversion 1.
  - split; inversion 1.
  - destruct (p c) eqn:E; split; inversion 1; subst.
    + now constructor.
    + constructor.
    + congruence.
  - assert (Hseq : Matches (Seq (deriv c a) b) s ->
                   Matches (Seq a b) (c :: s)).
    { inversion 1 as [| |a' b' s1 s2 Ha Hb| | | |]; subst.
      apply IHa in Ha. exact (MSeq _ _ _ _ Ha Hb). }
    assert (Hinv : Matches (Seq a b) (c :: s) ->
                   Matches (Seq (deriv c a) b) s \/
                   (Matches a [] /\ Matches (deriv c b) s)).
    { intro H. inversion H as [| |a' b' s1 s2 Ha Hb Hr Heq| | | |]; subst.
      destruct s1 as [|x s1]; simpl in Heq.
      - right. subst. split; [assumption | now apply IHb].
      - injection Heq as -> <-. left.
        apply MSeq; [now apply IHa | assumption]. }
    destruct (nullable a) eqn:En.
    + split.
      * inversion 1; subst; [auto|].
        apply nullable_spec in En.
        change (c :: s) with ([] ++ c :: s). apply MSeq; [assumption|].
        now apply IHb.
      * intro H. destruct (Hinv H) as [H'|[_ H']];
          [now apply MAltL | now apply MAltR].
    + split; [exact Hseq|].
      intro H. destruct (Hinv H) as [H'|[H' _]]; [assumption|].
      apply nullable_spec in H'. congruence.
  - split; inversion 1; subst.
    + apply MAltL. now apply IHa.
    + apply MAltR. now apply IHb.
    + apply MAltL. now apply IHa.
    + apply MAltR. now apply IHb.
  - split.
    + inversion 1 as [| |a' b' s1 s2 Ha Hb| | | |]; subst.
      apply IHa in Ha. exact (MStarApp _ _ _ Ha Hb).
    + intro H. apply star_cons in H as (s1 & s2 & -> & Ha & Hs).
      apply MSeq; [now apply IHa | assumption].
Qed.

(** The derivative matcher decides the denotation. *)
Lemma test_spec (r : regex) (s : jsstring) :
  test r s = true <-> Matches r s.
Proof.
  revert r; induction s as [|c s IH]; intro r; simpl.
  - apply nullable_spec.
  - rewrite IH. apply deriv_spec.
Qed.

Lemma matches_star_cls (p : code_unit -> bool) (s : jsstring) :
  Matches (Star (Cls p)) s <-> forallb p s = true.
Proof.
  split.
  - intro H. remember (Star (Cls p)) as r eqn:Er.
    induction H as [| | | | | |a s1 s2 H1 _ H2 IH2]; try discriminate;
      [reflexivity|].
    injection Er as ->. inversion H1; subst. simpl.
    rewrite IH2 by reflexivity. now rewrite H0.
  - induction s as [|c s IH]; simpl; intro H; [constructor|].
    apply andb_true_iff in H as [Hc Hs].
    change (c :: s) with ([c] ++ s). apply MStarApp; [now constructor | auto].
Qed.

Lemma matches_plus_cls (p : code_unit -> bool) (s : jsstring) :
  Matches (Plus (Cls p)) s <-> s <> [] /\ forallb p s = true.
Proof.
  unfold Plus. split.
  - inversion 1 as [| |a b s1 s2 Ha Hb| | | |]; subst.
    inversion Ha; subst. apply matches_star_cls in Hb. simpl.
    split; [discriminate|]. now rewrite H1, Hb.
  - intros [Hne H]. destruct s as [|c s]; [congruence|].
    simpl in H. apply andb_true_iff in H as [Hc Hs].
    change (c :: s) with ([c] ++ s).
    apply MSeq; [now constructor | now apply matches_star_cls].
Qed.

Lemma matches_repeat_cls (n : nat) (p : code_unit -> bool) (s : jsstring) :
  Matches (Repeat n (Cls p)) s <-> List.length s = n /\ forallb p s = true.
Proof.
  revert s; induction n as [|n IH]; intro s; simpl.
  - split.
    + inversion 1. auto.
    + intros [H _]. destruct s; [constructor | discriminate].
  - split.
    + inversion 1 as [| |a b s1 s2 Ha Hb| | | |]; subst.
      inversion Ha; subst. apply IH in Hb as [Hl Hf]. simpl.
      rewrite Hl, H1, Hf. auto.
    + intros [Hl H]. destruct s as [|c s]; [discriminate|].
      simpl in *. apply andb_true_iff in H as [Hc Hs].
      change (c :: s) with ([c] ++ s).
      apply MSeq; [now constructor|]. apply IH. split; [lia | assumption].
Qed.

End RegexFacts.

(* ================================================================== *)
(** * ManualEntryModal: what [validateISBN] and [handleSubmit] accept *)
(* ================================================================== *)

Section ValidatorFacts.

Import ManualEntryModal.

(** Under the [i] flag the class [[\dX]] is [[0-9Xx]]. *)
Lemma ignore_case_digit_or_X (c : code_unit) :
  ignore_case digit_or_X c = Spec.digit_X_x c.
Proof.
  unfold ignore_case, digit_or_X, Spec.digit_X_x, is_digit, to_upper,
    to_lower, upper_X, lower_x.
  destruct (N.leb_spec 97 c), (N.leb_spec c 122), (N.leb_spec 65 c),
    (N.leb_spec c 90), (N.leb_spec 48 c), (N.leb_spec c 57); simpl;
    repeat match goal with
           | |- context [N.eqb ?a ?b] => destruct (N.eqb_spec a b)
           | |- context [N.leb ?a ?b] => destruct (N.leb_spec a b)
           end; simpl; try reflexivity; lia.
Qed.

Lemma forallb_ext_in (p q : code_unit -> bool) (s : jsstring) :
  (forall c, p c = q c) -> forallb p s = forallb q s.
Proof.
  intro H. induction s as [|c s IH]; simpl; [reflexivity|].
  now rewrite H, IH.
Qed.

Lemma forallb_impl (p q : code_unit -> bool) (s : jsstring) :
  (forall c, p c = true -> q c = true) ->
  forallb p s = true -> forallb q s = true.
Proof.
  intro H. induction s as [|c s IH]; simpl; [reflexivity|].
  intro Hp. apply andb_true_iff in Hp as [Hc Hs].
  now rewrite (H c Hc), IH.
Qed.

Lemma clean_cons (c : code_unit) (s : jsstring) :
  clean (c :: s) = if separator c then clean s else c :: clean s.
Proof. unfold clean, replace_class. simpl. now destruct (separator c). Qed.

(** The cleaned string holds no hyphen and no whitespace. *)
Lemma clean_no_separator (value : jsstring) :
  forallb (fun c => negb (separator c)) (clean value) = true.
Proof.
  induction value as [|c s IH]; [reflexivity|].
  rewrite clean_cons. destruct (separator c) eqn:E; [exact IH|].
  simpl. now rewrite E, IH.
Qed.

Lemma clean_whitespace (s : jsstring) :
  forallb is_whitespace s = true -> clean s = [].
Proof.
  induction s as [|c s IH]; [reflexivity|].
  intro H. simpl in H. apply andb_true_iff in H as [Hc Hs].
  rewrite clean_cons. unfold separator. rewrite Hc, orb_true_r. auto.
Qed.

Lemma test_only_digits_or_X (s : jsstring) :
  test only_digits_or_X s = truthy s && forallb Spec.digit_X_x s.
Proof.
  rewrite <- (forallb_ext_in _ _ s ignore_case_digit_or_X).
  apply eq_true_iff_eq. rewrite test_spec. unfold only_digits_or_X.
  rewrite matches_plus_cls, andb_true_iff.
  destruct s; simpl; split; intros [H1 H2]; split; congruence.
Qed.

(** What [validateISBN] returns. *)
Lemma validateISBN_returns (value : jsstring) (m : ModalState) :
  fst (validateISBN value m) =
  (Nat.eqb (List.length (clean value)) 10
   || Nat.eqb (List.length (clean value)) 13)
  && forallb Spec.digit_X_x (clean value).
Proof.
  unfold validateISBN. cbv zeta. rewrite test_only_digits_or_X.
  destruct (clean value) as [|c s] eqn:E; [reflexivity|].
  cbn [truthy andb].
  destruct (Nat.eqb (List.length (c :: s)) 10),
    (Nat.eqb (List.length (c :: s)) 13); cbn [negb andb orb fst];
    try reflexivity;
    destruct (forallb Spec.digit_X_x (c :: s)); reflexivity.
Qed.

(** What [handleSubmit] passes to [onSubmit]. *)
Lemma handleSubmit_submits (m : ModalState) :
  snd (handleSubmit m) =
  if (Nat.eqb (List.length (clean (isbn m))) 10
      || Nat.eqb (List.length (clean (isbn m))) 13)
     && forallb Spec.digit_X_x (clean (isbn m))
  then Some (clean (isbn m)) else None.
Proof.
  unfold handleSubmit.
  pose proof (validateISBN_returns (isbn m) m) as Hv.
  destruct (validateISBN (isbn m) m) as [ok m1]. simpl in Hv. subst ok.
  destruct (truthy (trim (isbn m))) eqn:Et; cbn [negb].
  - destruct ((_ || _) && _); reflexivity.
  - assert (Hc : clean (isbn m) = []).
    { apply clean_whitespace, trim_nil.
      destruct (trim (isbn m)); [reflexivity | discriminate]. }
    rewrite Hc. reflexivity.
Qed.

(** What the specification's validator accepts. *)
Lemma spec_validate_accepts (raw : jsstring) (c : jsstring) :
  Spec.validate raw = Some c ->
  (List.length (clean raw) = 10 \/ List.length (clean raw) = 13)
  /\ forallb Spec.digit_X_x (clean raw) = true.
Proof.
  unfold Spec.validate. cbv zeta.
  destruct (_ || _) eqn:E; [|discriminate]. intros _.
  apply orb_true_iff in E as [E|E]; apply andb_true_iff in E as [El Et];
    apply Nat.eqb_eq in El; apply test_spec in Et.
  - split; [now left|].
    unfold Spec.isbn10 in Et.
    inversion Et as [| |a b s1 s2 Ha Hb Hr Heq| | | |]; subst.
    apply (matches_repeat_cls 9) in Ha as [_ Ha]. inversion Hb; subst.
    rewrite forallb_app. simpl. rewrite H0, andb_true_r.
    apply forallb_impl with (p := is_digit); [|assumption].
    intros x Hx. unfold Spec.digit_X_x. now rewrite Hx.
  - split; [now right|].
    apply (matches_repeat_cls 13) in Et as [_ Et].
    apply forallb_impl with (p := is_digit); [|assumption].
    intros x Hx. unfold Spec.digit_X_x. now rewrite Hx.
Qed.

End ValidatorFacts.

(* ================================================================== *)
(** * services/api.ts: how [postScanToAPI] maps outcomes *)
(* ================================================================== *)

Section ApiFacts.

Import Api.

(** [getScannerId] always resolves. *)
Lemma getScannerId_returns (env : Env) :
  getScannerId env = Returns (scanner_id_of env).
Proof.
  unfold getScannerId, scanner_id_of.
  destruct (getUniqueId env); reflexivity.
Qed.

(** The one request a call sends, and what follows from its outcome. *)
Lemma postScanToAPI_try_fetch (env : Env) (isbn : jsstring) :
  postScanToAPI_try env isbn
  = bind (fetch env (request_of env isbn))
         (fun response => bind (json response) (interpret response)).
Proof.
  unfold postScanToAPI_try. rewrite getScannerId_returns. reflexivity.
Qed.

Lemma code_is_true (data : ScanResponse) (c : jsstring) :
  code_is data c = true <-> code data = Some c.
Proof.
  unfold code_is. destruct (code data) as [x|].
  - rewrite streq_eq. split; congruence.
  - split; discriminate.
Qed.

Lemma code_is_false (data : ScanResponse) (c : jsstring) :
  code_is data c = false <-> code data <> Some c.
Proof.
  rewrite <- code_is_true. destruct (code_is data c); split; congruence.
Qed.

Lemma interpret_returns (response : Response) (data : ScanResponse) :
  exists r, interpret response data = Returns r.
Proof.
  unfold interpret.
  destruct (negb (ok response)), (code_is data (lit "INVALID_ISBN")),
    (code_is data (lit "MISSING_ISBN")), (success data),
    (truthy_opt (warning data)); eauto.
Qed.

Lemma postScanToAPI_answered (env : Env) (isbn : jsstring)
    (response : Response) (data : ScanResponse) :
  answered env isbn response data ->
  postScanToAPI env isbn = interpret response data.
Proof.
  intros [Hf Hj]. unfold postScanToAPI. rewrite postScanToAPI_try_fetch.
  rewrite Hf. cbn [bind]. rewrite Hj. cbn [bind].
  destruct (interpret_returns response data) as [r ->]. reflexivity.
Qed.

Lemma interpret_warning (response : Response) (data : ScanResponse)
    (w : jsstring) :
  ok response = true -> success data = true ->
  warning data = Some w -> w <> [] ->
  interpret response data = Returns (mkResult true (Some w) (Some None)).
Proof.
  intros Hok Hs Hw Hne. unfold interpret. rewrite Hok, Hs, Hw. cbn.
  destruct w; [congruence | reflexivity].
Qed.

(** What the [catch] block returns. *)
Lemma catch_message (e : Thrown) :
  exists m,
    postScanToAPI_catch e = Returns (mkResult false (Some m) None)
    /\ (forall msg,
          e = ErrorObject TypeError msg ->
          includes msg (lit "Network request failed") = true ->
          m = msg_network)
    /\ (forall cls msg,
          e = ErrorObject cls msg ->
          cls <> TypeError
          \/ includes msg (lit "Network request failed") = false ->
          m = msg)
    /\ (e = NotAnError -> m = msg_unknown).
Proof.
  unfold postScanToAPI_catch.
  destruct e as [cls msg|];
    cbn [instanceof_TypeError instanceof_Error error_message andb].
  - destruct cls; cbn [andb].
    + destruct (includes msg (lit "Network request failed")) eqn:Hi;
        eexists; (split; [reflexivity|]); repeat split; try discriminate.
      * intros ? ? ? [?|?]; congruence.
      * intros msg' [= <-]. congruence.
      * intros cls' msg' [= <- <-] _. reflexivity.
    + eexists. split; [reflexivity|]. repeat split; try discriminate.
      intros cls' msg' [= <- <-] _. reflexivity.
    + eexists. split; [reflexivity|]. repeat split; try discriminate.
      intros cls' msg' [= <- <-] _. reflexivity.
  - eexists. split; [reflexivity|]. repeat split; discriminate.
Qed.

Lemma postScanToAPI_throws (env : Env) (isbn : jsstring) (e : Thrown) :
  transport_throws env isbn e ->
  postScanToAPI env isbn = postScanToAPI_catch e.
Proof.
  unfold postScanToAPI. rewrite postScanToAPI_try_fetch.
  intros [H|(response & H & Hj)]; rewrite H; cbn [bind]; [reflexivity|].
  rewrite Hj. reflexivity.
Qed.

End ApiFacts.

(* ================================================================== *)
(** * CameraScreen: the debounce mechanism *)
(* ================================================================== *)

Section DebounceFacts.

Import TextbookService Api CameraScreen.

Lemma processScannedISBN_rejects (isbn : jsstring) (s : State) :
  isProcessing (refs s) = true \/ isbn = lastScannedISBN (refs s) ->
  processScannedISBN isbn s = s.
Proof.
  intros [H| ->]; unfold processScannedISBN.
  - now rewrite H.
  - now rewrite streq_refl, orb_true_r.
Qed.

Lemma cons_neq {A} (x : A) (l : list A) : l <> x :: l.
Proof.
  intro H. apply (f_equal (@List.length A)) in H. simpl in H. lia.
Qed.

(** After the guard: the shape of the state [processScannedISBN]
    leaves behind. *)
Lemma processScannedISBN_accepts (isbn : jsstring) (s : State) :
  isProcessing (refs s) = false -> isbn <> lastScannedISBN (refs s) ->
  let s' := processScannedISBN isbn s in
  in_flight (runtime s') = isbn :: in_flight (runtime s)
  /\ refs s' = mkRefs isbn true (Some (next_timer (runtime s)))
  /\ timers (runtime s')
     = (next_timer (runtime s), (clock (runtime s) + DEBOUNCE_DELAY)%N)
       :: match scanDebounceTimer (refs s) with
          | Some id => remove_timer id (timers (runtime s))
          | None => timers (runtime s)
          end
  /\ clock (runtime s') = clock (runtime s)
  /\ scanCount (ui s') = scanCount (ui s)
  /\ modal s' = modal s.
Proof.
  intros Hb Hl. apply streq_neq in Hl. unfold processScannedISBN.
  rewrite Hb, Hl. cbn [orb].
  destruct (scanDebounceTimer (refs s)); cbn; auto 10.
Qed.

Lemma submits_iff (isbn : jsstring) (s : State) :
  submits isbn s (processScannedISBN isbn s)
  <-> isProcessing (refs s) = false /\ isbn <> lastScannedISBN (refs s).
Proof.
  unfold submits. split.
  - intro H. destruct (isProcessing (refs s)) eqn:Hb.
    + rewrite processScannedISBN_rejects in H by auto.
      now apply cons_neq in H.
    + split; [reflexivity|]. intros ->.
      rewrite processScannedISBN_rejects in H by auto.
      now apply cons_neq in H.
  - intros [Hb Hl]. now apply processScannedISBN_accepts.
Qed.

Lemma remove_timer_same (id : nat) (due : N) :
  remove_timer id [(id, due)] = [].
Proof. unfold remove_timer. simpl. now rewrite Nat.eqb_refl. Qed.

Lemma remove_timer_invariant (id : nat) (l : list (nat * N)) (r : option nat) :
  (l = [] \/ exists i due, l = [(i, due)] /\ r = Some i) ->
  remove_timer id l = []
  \/ exists i due, remove_timer id l = [(i, due)] /\ r = Some i.
Proof.
  intros [->|(i & due & -> & ->)]; [now left|].
  unfold remove_timer. simpl. destruct (Nat.eqb i id); simpl; eauto.
Qed.

Lemma processScannedISBN_invariant (isbn : jsstring) (s : State) :
  debounce_invariant s -> debounce_invariant (processScannedISBN isbn s).
Proof.
  intros [Hf Ht].
  destruct (isProcessing (refs s)) eqn:Hb.
  { rewrite processScannedISBN_rejects by auto. split; [now rewrite Hb|auto]. }
  destruct (streq isbn (lastScannedISBN (refs s))) eqn:Hl.
  { apply streq_eq in Hl. rewrite processScannedISBN_rejects by auto.
    split; [now rewrite Hb|auto]. }
  apply streq_neq in Hl.
  destruct (processScannedISBN_accepts isbn s Hb Hl)
    as (Hin & Hr & Htm & _).
  split.
  - rewrite Hin, Hr. simpl. now rewrite Hf.
  - right. exists (next_timer (runtime s)),
      (clock (runtime s) + DEBOUNCE_DELAY)%N.
    rewrite Htm, Hr. split; [|reflexivity]. f_equal.
    destruct Ht as [->|(i & due & -> & ->)].
    + now destruct (scanDebounceTimer (refs s)).
    + apply remove_timer_same.
Qed.

(** What settling a call leaves alone, and what it resets. *)
Lemma settled_frame (outcome : completion ScanResult) (s : State) :
  let s' := processScannedISBN_settled outcome s in
  runtime s' = runtime s
  /\ refs s'
     = mkRefs (lastScannedISBN (refs s)) false (scanDebounceTimer (refs s))
  /\ modal s' = modal s.
Proof. cbn. auto. Qed.

Lemma awaited_singleton (isbn : jsstring) (rt : Runtime) :
  List.length (in_flight rt) = 1 -> awaited isbn rt = true ->
  in_flight rt = [isbn] /\ remove_first isbn (in_flight rt) = [].
Proof.
  unfold awaited. destruct (in_flight rt) as [|x [|y l]]; try discriminate.
  intros _. simpl. rewrite orb_false_r. intro H. rewrite H.
  apply streq_eq in H. now subst.
Qed.

Lemma awaited_nonempty (isbn : jsstring) (rt : Runtime) :
  awaited isbn rt = true -> List.length (in_flight rt) <> 0.
Proof. unfold awaited. destruct (in_flight rt); discriminate. Qed.

(** Every event keeps the invariant. *)
Lemma step_invariant (e : Event) (s s' : State) :
  debounce_invariant s -> step e s = Some s' -> debounce_invariant s'.
Proof.
  intros Hinv Hstep. destruct e; simpl in Hstep.
  - injection Hstep as <-. exact Hinv.
  - injection Hstep as <-. unfold onCodeScanned.
    destruct (_ || _); [exact Hinv|].
    destruct codes as [|code codes]; [exact Hinv|].
    destruct (value code) as [v|]; [|exact Hinv].
    destruct (truthy v); [|exact Hinv].
    now apply processScannedISBN_invariant.
  - injection Hstep as <-. exact Hinv.
  - injection Hstep as <-. exact Hinv.
  - injection Hstep as <-. exact Hinv.
  - injection Hstep as <-. unfold manual_submit.
    destruct (ManualEntryModal.handleSubmit (modal s)) as [m [isbn|]];
      [|exact Hinv].
    apply (processScannedISBN_invariant isbn
             (set_ui (setShowManualEntry false (ui s)) s)).
    exact Hinv.
  - injection Hstep as <-. exact Hinv.
  - injection Hstep as <-. exact Hinv.
  - destruct (timer_due id (runtime s)); [|discriminate].
    injection Hstep as <-. destruct Hinv as [Hf Ht]. split; [exact Hf|].
    apply (remove_timer_invariant id) in Ht. exact Ht.
  - destruct (awaited isbn (runtime s)) eqn:Hh; [|discriminate].
    injection Hstep as <-. destruct Hinv as [Hf Ht].
    pose proof (awaited_nonempty _ _ Hh) as Hne.
    match goal with
    | |- debounce_invariant (processScannedISBN_settled ?o ?s0) =>
        destruct (settled_frame o s0) as (Hrt & Hrf & _)
    end.
    unfold debounce_invariant. rewrite Hrt, Hrf. cbn.
    split; [|exact Ht].
    destruct (isProcessing (refs s)); [|congruence].
    now destruct (awaited_singleton _ _ Hf Hh) as [_ ->].
Qed.

Lemma reachable_invariant (s : State) :
  reachable s -> debounce_invariant s.
Proof.
  intros [trace Hrun].
  assert (Hgen : forall s0, debounce_invariant s0 ->
                            run trace s0 = Some s -> debounce_invariant s).
  { clear Hrun. induction trace as [|e trace IH]; intros s0 H0 Hrun;
      simpl in Hrun.
    - now injection Hrun as <-.
    - destruct (step e s0) as [s1|] eqn:E; [|discriminate].
      eapply IH; [|exact Hrun]. eapply step_invariant; eauto. }
  apply (Hgen initial); [|exact Hrun].
  split; [reflexivity | now left].
Qed.

End DebounceFacts.

(* ================================================================== *)
(** * The debouncer: transition rule and single flight *)
(* ================================================================== *)

Section DebouncerClaims.

Import TextbookService Api CameraScreen.

Lemma timer_fires_clears (id : nat) (s1 s2 : State) :
  step (TimerFires id) s1 = Some s2 -> lastScannedISBN (refs s2) = [].
Proof.
  simpl. destruct (timer_due id (runtime s1)); [|discriminate].
  now intros [= <-].
Qed.

Lemma settled_not_busy (outcome : completion ScanResult) (s : State) :
  isProcessing (refs (processScannedISBN_settled outcome s)) = false.
Proof.
  destruct (settled_frame outcome s) as (_ & Hr & _). now rewrite Hr.
Qed.

(** C1. A code handed to [processScannedISBN] is submitted if and only
    if [isProcessing] is false and the code differs from
    [lastScannedISBN]; a code that is not submitted changes nothing; a
    submitted code sets [isProcessing], becomes [lastScannedISBN] and
    leaves exactly one pending timer, due 2000 ms later, whose callback
    empties [lastScannedISBN]; and when the call settles, with a result
    or with an exception, [isProcessing] is false again. *)
Theorem debouncer_transition_rule (s : State) (isbn : jsstring) :
  reachable s ->
  let s' := processScannedISBN isbn s in
  (submits isbn s s'
   <-> isProcessing (refs s) = false /\ isbn <> lastScannedISBN (refs s))
  /\ (~ submits isbn s s' -> s' = s)
  /\ (submits isbn s s' ->
      isProcessing (refs s') = true
      /\ lastScannedISBN (refs s') = isbn
      /\ exists id,
           scanDebounceTimer (refs s') = Some id
           /\ timers (runtime s') = [(id, (clock (runtime s) + 2000)%N)]
           /\ (forall ms,
                 timer_due id
                   (mkRuntime (clock (runtime s) + ms)%N (timers (runtime s'))
                              (next_timer (runtime s'))
                              (in_flight (runtime s')))
                 = (2000 <=? ms)%N)
           /\ (forall s1 s2,
                 step (TimerFires id) s1 = Some s2 ->
                 lastScannedISBN (refs s2) = []))
  /\ (forall outcome s0,
        isProcessing (refs (processScannedISBN_settled outcome s0)) = false).
Proof.
  intros Hreach s'. apply reachable_invariant in Hreach as [_ Ht].
  split; [apply submits_iff|]. split; [|split].
  - intro Hn. subst s'.
    destruct (isProcessing (refs s)) eqn:Hb;
      [apply processScannedISBN_rejects; auto|].
    destruct (streq isbn (lastScannedISBN (refs s))) eqn:Hl.
    + apply streq_eq in Hl. apply processScannedISBN_rejects; auto.
    + apply streq_neq in Hl. exfalso. apply Hn. now apply submits_iff.
  - intro Hs. apply submits_iff in Hs as [Hb Hl].
    destruct (processScannedISBN_accepts isbn s Hb Hl)
      as (_ & Hr & Htm & _).
    fold s' in Hr, Htm. rewrite Hr. cbn [isProcessing lastScannedISBN
      scanDebounceTimer]. split; [reflexivity|]. split; [reflexivity|].
    exists (next_timer (runtime s)).
    assert (Htm' : timers (runtime s')
                   = [(next_timer (runtime s),
                       (clock (runtime s) + 2000)%N)]).
    { rewrite Htm. unfold DEBOUNCE_DELAY. f_equal.
      destruct Ht as [Ht|(i & due & Ht & Hi)]; rewrite Ht.
      - now destruct (scanDebounceTimer (refs s)).
      - rewrite Hi. apply remove_timer_same. }
    split; [reflexivity|]. split; [exact Htm'|]. split.
    + intro ms. unfold timer_due. rewrite Htm'. cbn.
      rewrite Nat.eqb_refl, orb_false_r. cbn.
      destruct (N.leb_spec 2000 ms), (N.leb_spec (clock (runtime s) + 2000)
                                        (clock (runtime s) + ms));
        try reflexivity; lia.
    + apply timer_fires_clears.
  - apply settled_not_busy.
Qed.

Lemma debouncer_transition_rule_witness :
  submits Samples.sample_isbn initial
          (processScannedISBN Samples.sample_isbn initial)
  /\ isProcessing (refs (processScannedISBN Samples.sample_isbn initial))
     = true
  /\ lastScannedISBN (refs (processScannedISBN Samples.sample_isbn initial))
     = Samples.sample_isbn.
Proof.
  assert (Hreach : reachable initial) by (exists []; reflexivity).
  destruct (debouncer_transition_rule initial Samples.sample_isbn Hreach)
    as (Hiff & _ & Hacc & _).
  assert (Hs : submits Samples.sample_isbn initial
                 (processScannedISBN Samples.sample_isbn initial)).
  { apply Hiff. split; [reflexivity | discriminate]. }
  destruct (Hacc Hs) as (Hb & Hl & _). auto.
Defined.

Lemma step_busy_cleared (e : Event) (s s' : State) :
  step e s = Some s' ->
  isProcessing (refs s) = true -> isProcessing (refs s') = false ->
  exists isbn env,
    e = SubmissionSettles isbn env /\ awaited isbn (runtime s) = true.
Proof.
  intros Hstep Hb Hb'. destruct e; simpl in Hstep;
    try (injection Hstep as <-; cbn in Hb'; congruence).
  - injection Hstep as <-. unfold onCodeScanned in Hb'.
    destruct (_ || _); [congruence|].
    destruct codes as [|c codes]; [congruence|].
    destruct (value c) as [v|]; [|congruence].
    destruct (truthy v); [|congruence].
    rewrite processScannedISBN_rejects in Hb' by auto. congruence.
  - injection Hstep as <-. unfold manual_submit in Hb'.
    destruct (ManualEntryModal.handleSubmit (modal s)) as [m [isbn|]];
      cbn in Hb'; [|congruence].
    unfold handleManualSubmit in Hb'.
    rewrite processScannedISBN_rejects in Hb' by auto.
    cbn in Hb'. congruence.
  - destruct (timer_due id (runtime s)); [|discriminate].
    injection Hstep as <-. cbn in Hb'. congruence.
  - destruct (awaited isbn (runtime s)) eqn:Hh; [|discriminate].
    eauto.
Qed.

(** C2. In every reachable state at most one call of
    [postScanToSupabase] is in flight, and one is in flight exactly
    when [isProcessing] is set; an event starts a call only from a state
    where [isProcessing] is false and leaves it true; and the only
    event that clears [isProcessing] is the settling of the one call in
    flight. *)
Theorem at_most_one_in_flight (s : State) :
  reachable s ->
  List.length (in_flight (runtime s)) <= 1
  /\ (isProcessing (refs s) = true
      <-> List.length (in_flight (runtime s)) = 1)
  /\ (forall e s',
        step e s = Some s' ->
        (List.length (in_flight (runtime s))
         < List.length (in_flight (runtime s')) ->
         isProcessing (refs s) = false /\ isProcessing (refs s') = true)
        /\ (isProcessing (refs s) = true ->
            isProcessing (refs s') = false ->
            exists isbn env,
              e = SubmissionSettles isbn env
              /\ in_flight (runtime s) = [isbn]
              /\ in_flight (runtime s') = [])).
Proof.
  intro Hreach. pose proof (reachable_invariant s Hreach) as Hinv.
  destruct Hinv as [Hf Ht].
  split; [destruct (isProcessing (refs s)); lia|].
  split; [destruct (isProcessing (refs s)); split; (congruence || lia)|].
  intros e s' Hstep.
  pose proof (step_invariant e s s' (conj Hf Ht) Hstep) as [Hf' _].
  split.
  - intro Hlt. rewrite Hf, Hf' in Hlt.
    destruct (isProcessing (refs s)), (isProcessing (refs s'));
      (lia || auto).
  - intros Hb Hb'.
    destruct (step_busy_cleared e s s' Hstep Hb Hb')
      as (isbn & env & He & Hh).
    exists isbn, env. split; [exact He|].
    rewrite Hb in Hf. rewrite Hb' in Hf'.
    split; [|now destruct (in_flight (runtime s'))].
    now destruct (awaited_singleton _ _ Hf Hh) as [-> _].
Qed.

Lemma at_most_one_in_flight_witness :
  List.length
    (in_flight (runtime (processScannedISBN Samples.sample_isbn initial)))
  <= 1.
Proof.
  refine (proj1 (at_most_one_in_flight
                   (processScannedISBN Samples.sample_isbn initial) _)).
  exists [CodesDetected [Samples.first_scan]].
  reflexivity.
Defined.

End DebouncerClaims.

Section WindowClaims.

Import TextbookService Api CameraScreen.

(** C3, as stated, fails.  A first code is scanned and submitted; the
    user taps the backdrop of the confirmation sheet, which reactivates
    the camera while the request is still pending; 2000 ms pass and the
    debounce timer fires, emptying [lastScannedISBN]; a second, different
    code is then detected: it is not submitted, the state does not move
    and the first code is still the only one in flight. *)
Lemma distinct_code_while_busy_rejected :
  exists s,
    run Samples.slow_network initial = Some s
    /\ isActive (ui s) = true
    /\ isProcessing (refs s) = true
    /\ lastScannedISBN (refs s) = []
    /\ in_flight (runtime s) = [Samples.sample_isbn]
    /\ Samples.other_isbn <> Samples.sample_isbn
    /\ step (CodesDetected [Samples.second_scan]) s = Some s
    /\ ~ submits Samples.other_isbn s
           (processScannedISBN Samples.other_isbn s).
Proof.
  eexists. split; [vm_compute; reflexivity|].
  repeat split; try (vm_compute; reflexivity).
  - vm_compute. discriminate.
  - unfold submits. vm_compute. discriminate.
Qed.

(** C3, amended.  Whatever the state of the debounce window (timer
    pending, fired or never set), a code that differs from
    [lastScannedISBN] is submitted at once when [isProcessing] is false;
    while [isProcessing] is true no code is submitted, whether or not it
    differs from the previous one and whether or not the timer has
    already emptied [lastScannedISBN]. *)
Theorem distinct_code_accepted_when_idle (s : State) (isbn : jsstring) :
  (isProcessing (refs s) = false ->
   isbn <> lastScannedISBN (refs s) ->
   submits isbn s (processScannedISBN isbn s))
  /\ (isProcessing (refs s) = true ->
      processScannedISBN isbn s = s
      /\ ~ submits isbn s (processScannedISBN isbn s)).
Proof.
  split.
  - intros Hb Hl. apply submits_iff. auto.
  - intro Hb. split; [apply processScannedISBN_rejects; auto|].
    rewrite submits_iff. intros [Hb' _]. congruence.
Qed.

Lemma distinct_code_accepted_when_idle_witness :
  submits Samples.other_isbn Samples.idle_in_window
          (processScannedISBN Samples.other_isbn Samples.idle_in_window).
Proof.
  refine (proj1 (distinct_code_accepted_when_idle
                   Samples.idle_in_window Samples.other_isbn) _ _).
  - reflexivity.
  - discriminate.
Defined.

End WindowClaims.

Section CounterClaims.

Import TextbookService Api CameraScreen.

Lemma scanCount_processScannedISBN (isbn : jsstring) (s : State) :
  scanCount (ui (processScannedISBN isbn s)) = scanCount (ui s).
Proof.
  destruct (isProcessing (refs s)) eqn:Hb;
    [now rewrite processScannedISBN_rejects by auto|].
  destruct (streq isbn (lastScannedISBN (refs s))) eqn:Hl.
  - apply streq_eq in Hl. now rewrite processScannedISBN_rejects by auto.
  - apply streq_neq in Hl.
    now destruct (processScannedISBN_accepts isbn s Hb Hl)
      as (_ & _ & _ & _ & Hc & _).
Qed.

Lemma scanCount_settled (outcome : completion ScanResult) (s : State) :
  scanCount (ui (processScannedISBN_settled outcome s))
  = scanCount (ui s) + counted outcome.
Proof.
  destruct outcome as [r|e]; cbn; [|lia].
  unfold on_result. destruct (result_success r); cbn; lia.
Qed.

Lemma scanCount_step (e : Event) (s s' : State) :
  step e s = Some s' ->
  scanCount (ui s')
  = scanCount (ui s)
    + match e with
      | SubmissionSettles isbn env => counted (postScanToSupabase env isbn)
      | _ => 0
      end.
Proof.
  intro Hstep. destruct e; simpl in Hstep;
    try (injection Hstep as <-; cbn; lia).
  - injection Hstep as <-. unfold onCodeScanned.
    destruct (_ || _); [lia|].
    destruct codes as [|c codes]; [lia|].
    destruct (value c) as [v|]; [|lia].
    destruct (truthy v); [|lia].
    rewrite scanCount_processScannedISBN. lia.
  - injection Hstep as <-. unfold manual_submit.
    destruct (ManualEntryModal.handleSubmit (modal s)) as [m [isbn|]];
      cbn; [|lia].
    unfold handleManualSubmit. rewrite scanCount_processScannedISBN.
    cbn. lia.
  - destruct (timer_due id (runtime s)); [|discriminate].
    injection Hstep as <-. cbn. lia.
  - destruct (awaited isbn (runtime s)); [|discriminate].
    injection Hstep as <-. rewrite scanCount_settled. reflexivity.
Qed.

(** C10.  When a call settles, [scanCount] goes up by exactly one if it
    returned a result whose [success] is true, and stays as it is if the
    result's [success] is false or if the call threw; a success whose
    message is a warning and whose book is [null] counts like any other
    success; and no other event of the screen, a debounced or a newly
    accepted scan included, moves the counter. *)
Theorem scan_counter :
  (forall r s,
     result_success r = true ->
     scanCount (ui (processScannedISBN_settled (Returns r) s))
     = scanCount (ui s) + 1)
  /\ (forall r s,
        result_success r = false ->
        scanCount (ui (processScannedISBN_settled (Returns r) s))
        = scanCount (ui s))
  /\ (forall e s,
        scanCount (ui (processScannedISBN_settled (Throws e) s))
        = scanCount (ui s))
  /\ (forall w s,
        let s' :=
          processScannedISBN_settled
            (Returns (mkResult true (Some w) (Some None))) s in
        scanCount (ui s') = scanCount (ui s) + 1
        /\ scannedBook (ui s') = None)
  /\ (forall isbn s,
        scanCount (ui (processScannedISBN isbn s)) = scanCount (ui s))
  /\ (forall e s s',
        step e s = Some s' ->
        scanCount (ui s')
        = scanCount (ui s)
          + match e with
            | SubmissionSettles isbn env =>
                match postScanToSupabase env isbn with
                | Returns r => if result_success r then 1 else 0
                | Throws _ => 0
                end
            | _ => 0
            end)
  /\ (forall env isbn response data w s s',
        answered env isbn response data ->
        ok response = true -> success data = true ->
        warning data = Some w -> w <> [] ->
        step (SubmissionSettles isbn env) s = Some s' ->
        scanCount (ui s') = scanCount (ui s) + 1
        /\ scanMessage (ui s') = w
        /\ scannedBook (ui s') = None).
Proof.
  split; [|split; [|split; [|split; [|split; [|split]]]]].
  - intros r s Hr. rewrite scanCount_settled. cbn. now rewrite Hr.
  - intros r s Hr. rewrite scanCount_settled. cbn. rewrite Hr. lia.
  - intros e s. rewrite scanCount_settled. cbn. lia.
  - intros w s s'. subst s'. split; [|reflexivity].
    rewrite scanCount_settled. reflexivity.
  - apply scanCount_processScannedISBN.
  - apply scanCount_step.
  - intros env isbn response data w s s' Ha Hok Hs Hw Hne Hstep.
    simpl in Hstep.
    destruct (awaited isbn (runtime s)); [|discriminate].
    injection Hstep as <-. unfold postScanToSupabase.
    rewrite (postScanToAPI_answered _ _ _ _ Ha).
    rewrite (interpret_warning _ _ _ Hok Hs Hw Hne). cbn.
    split; [reflexivity|]. split; [|reflexivity].
    destruct w; [congruence | reflexivity].
Qed.

Lemma scan_counter_witness :
  scanCount
    (ui (processScannedISBN_settled
           (Returns (mkResult true (Some (lit "Book metadata not found"))
                              (Some None)))
           (processScannedISBN Samples.sample_isbn initial)))
  = 1.
Proof.
  refine (proj1 scan_counter
                (mkResult true (Some (lit "Book metadata not found"))
                          (Some None))
                (processScannedISBN Samples.sample_isbn initial) _).
  reflexivity.
Defined.

End CounterClaims.

(* ================================================================== *)
(** * Which codes reach the submission client *)
(* ================================================================== *)

Section NormalizationClaims.

Import TextbookService Api CameraScreen.

Lemma processScannedISBN_submits_only (isbn c : jsstring) (s : State) :
  submits c s (processScannedISBN isbn s) -> c = isbn.
Proof.
  unfold submits. intro H.
  destruct (isProcessing (refs s)) eqn:Hb.
  { rewrite processScannedISBN_rejects in H by auto.
    now apply cons_neq in H. }
  destruct (streq isbn (lastScannedISBN (refs s))) eqn:Hl.
  { apply streq_eq in Hl. rewrite processScannedISBN_rejects in H by auto.
    now apply cons_neq in H. }
  apply streq_neq in Hl.
  destruct (processScannedISBN_accepts isbn s Hb Hl) as (Hin & _).
  rewrite Hin in H. congruence.
Qed.

(** C4, as stated, fails for the camera.  An EAN-8 barcode of eight
    digits and a Code 128 barcode that spells an ISBN with its hyphens
    are both handed to the submission client exactly as detected. *)
Lemma camera_code_not_normalized :
  submits (lit "96385074") initial
          (onCodeScanned [Samples.ean8_scan] initial)
  /\ List.length (lit "96385074") = 8
  /\ submits (lit "978-0-13-467094-2") initial
             (onCodeScanned [Samples.code128_scan] initial)
  /\ existsb ManualEntryModal.separator (lit "978-0-13-467094-2") = true.
Proof.
  repeat split; vm_compute; reflexivity.
Qed.

(** C4, amended.  A code entered manually that is handed to the
    submission client has length exactly 10 or 13 and contains no
    hyphen and no whitespace character.  A code detected by the camera
    is handed on as it was detected, without validation or
    normalization: what the camera path submits is the non-empty value
    of the first detected barcode, unchanged, and it submits that value,
    whatever its length and characters, whenever the camera is active,
    no call is pending and the value differs from [lastScannedISBN]. *)
Theorem submitted_codes (s : State) (c : jsstring) :
  (submits c s (manual_submit s) ->
   (List.length c = 10 \/ List.length c = 13)
   /\ forallb (fun u => negb (N.eqb u hyphen || is_whitespace u)) c = true)
  /\ (forall codes,
        submits c s (onCodeScanned codes s) ->
        c <> []
        /\ exists code rest, codes = code :: rest /\ value code = Some c)
  /\ (forall code rest,
        value code = Some c ->
        c <> [] ->
        isActive (ui s) = true ->
        isProcessing (refs s) = false ->
        c <> lastScannedISBN (refs s) ->
        submits c s (onCodeScanned (code :: rest) s))
  /\ (forall codes,
        submits c s (onCodeScanned codes s) ->
        isActive (ui s) = true
        /\ isProcessing (refs s) = false
        /\ c <> lastScannedISBN (refs s)).
Proof.
  split; [|split; [|split]].
  - unfold manual_submit.
    pose proof (handleSubmit_submits (modal s)) as Hs.
    destruct (ManualEntryModal.handleSubmit (modal s)) as [m submitted].
    simpl in Hs. subst submitted.
    destruct ((_ || _) && _) eqn:Hc.
    + intro H.
      assert (Hc' : c = ManualEntryModal.clean (ManualEntryModal.isbn (modal s))).
      { apply (processScannedISBN_submits_only _ c
                 (set_ui (setShowManualEntry false (ui s)) s)). exact H. }
      subst c. apply andb_true_iff in Hc as [Hlen _].
      split.
      * apply orb_true_iff in Hlen as [Hl|Hl]; apply Nat.eqb_eq in Hl; auto.
      * apply clean_no_separator.
    + intro H. unfold submits in H. cbn in H. now apply cons_neq in H.
  - intros codes H. unfold onCodeScanned in H.
    destruct (_ || _); [now apply cons_neq in H|].
    destruct codes as [|code rest]; [now apply cons_neq in H|].
    destruct (value code) as [v|] eqn:Hv; [|now apply cons_neq in H].
    destruct (truthy v) eqn:Hne; [|now apply cons_neq in H].
    apply processScannedISBN_submits_only in H. subst v.
    split; [now destruct c|]. exists code, rest. auto.
  - intros code rest Hv Hne Ha Hb Hl. unfold onCodeScanned.
    rewrite Ha, Hv. cbn.
    destruct c as [|u c]; [congruence|]. cbn [truthy].
    apply submits_iff. auto.
  - intros codes H. unfold onCodeScanned in H.
    destruct (isActive (ui s)); cbn in H; [|now apply cons_neq in H].
    destruct codes as [|code rest]; cbn in H; [now apply cons_neq in H|].
    destruct (value code) as [v|]; [|now apply cons_neq in H].
    destruct (truthy v); [|now apply cons_neq in H].
    pose proof (processScannedISBN_submits_only _ _ _ H) as ->.
    apply submits_iff in H as [Hb Hl]. auto.
Qed.

Lemma submitted_codes_witness :
  (List.length (lit "9780134670942") = 10
   \/ List.length (lit "9780134670942") = 13)
  /\ forallb (fun u => negb (N.eqb u hyphen || is_whitespace u))
             (lit "9780134670942") = true.
Proof.
  refine (proj1 (submitted_codes
                   (Samples.typed (lit "978-0-13-467094-2"))
                   (lit "9780134670942")) _).
  reflexivity.
Defined.

(** C5, as stated, fails.  Ten letters [X] are accepted although they
    do not match the ISBN-10 pattern, and an ISBN-10 ending in a small
    [x] is handed on with the small letter, not in upper case. *)
Lemma validator_accepts_any_X :
  snd (ManualEntryModal.handleSubmit
         (ManualEntryModal.mkModal (lit "XXXXXXXXXX") []))
  = Some (lit "XXXXXXXXXX")
  /\ Spec.validate (lit "XXXXXXXXXX") = None
  /\ snd (ManualEntryModal.handleSubmit
            (ManualEntryModal.mkModal (lit "012345678x") []))
     = Some (lit "012345678x")
  /\ Spec.validate (lit "012345678x") = Some (lit "012345678X").
Proof.
  repeat split; vm_compute; reflexivity.
Qed.

(** C5, amended.  After stripping whitespace and hyphens, the validator
    accepts only strings of exactly 10 or 13 characters, each a digit or
    the letter X in either case, and so rejects every input whose
    stripped length is neither 10 nor 13; it accepts every input whose
    stripped form is 10 characters matching [^[0-9]{9}[0-9Xx]$] or 13
    characters matching [^[0-9]{13}$]; and on acceptance it outputs the
    stripped code, without separators and with its letter case
    unchanged. *)
Theorem validator_contract (m : ManualEntryModal.ModalState) :
  let raw := ManualEntryModal.isbn m in
  let stripped := ManualEntryModal.clean raw in
  let submitted := snd (ManualEntryModal.handleSubmit m) in
  (forall c,
     submitted = Some c ->
     c = stripped
     /\ (List.length c = 10 \/ List.length c = 13)
     /\ forallb Spec.digit_X_x c = true
     /\ forallb (fun u => negb (N.eqb u hyphen || is_whitespace u)) c = true)
  /\ (List.length stripped <> 10 -> List.length stripped <> 13 ->
      submitted = None)
  /\ (List.length stripped = 10 /\ test Spec.isbn10 stripped = true
      \/ List.length stripped = 13 /\ test Spec.isbn13 stripped = true ->
      submitted = Some stripped).
Proof.
  intros raw stripped submitted. subst submitted.
  rewrite handleSubmit_submits. fold raw. fold stripped.
  split; [|split].
  - intro c. destruct ((_ || _) && _) eqn:Hc; [|discriminate].
    intros [= <-]. apply andb_true_iff in Hc as [Hlen Hd].
    split; [reflexivity|]. split; [|split; [exact Hd|]].
    + apply orb_true_iff in Hlen as [Hl|Hl]; apply Nat.eqb_eq in Hl; auto.
    + apply clean_no_separator.
  - intros H10 H13. apply Nat.eqb_neq in H10, H13.
    now rewrite H10, H13.
  - intro H.
    assert (Hv : exists c, Spec.validate raw = Some c).
    { unfold Spec.validate. cbv zeta. fold stripped.
      destruct H as [[Hl Ht]|[Hl Ht]]; rewrite Hl, Ht; cbn;
        rewrite ?orb_true_r; eauto. }
    destruct Hv as [c Hv].
    apply spec_validate_accepts in Hv as [Hlen Hd]. fold stripped in Hlen, Hd.
    rewrite Hd, andb_true_r.
    destruct Hlen as [Hl|Hl]; rewrite Hl; cbn; rewrite ?orb_true_r;
      reflexivity.
Qed.

Lemma validator_contract_witness :
  snd (ManualEntryModal.handleSubmit
         (ManualEntryModal.mkModal (lit "978-0-13-467094-2") []))
  = Some (lit "9780134670942").
Proof.
  refine (proj2 (proj2 (validator_contract
                          (ManualEntryModal.mkModal
                             (lit "978-0-13-467094-2") []))) _).
  right. split; reflexivity.
Defined.

End NormalizationClaims.


(* ================================================================== *)
(** * services/api.ts: the claims on [postScanToAPI] *)
(* ================================================================== *)

Section ApiClaims.

Import Api Samples.

(** C6, as stated, fails.  The server answers 200 with [success: true],
    a [warning] property that is the empty string, and a book: the
    client reports a plain success carrying the book, not a partial
    success whose message is the warning and whose book is [null]. *)
Lemma empty_warning_is_plain_success :
  warning (with_warning []) = Some []
  /\ postScanToAPI (answering (ok_response (with_warning []))) sample_isbn
     = Returns (mkResult true (Some (lit "Scan saved successfully!"))
                         (Some (Some sample_book)))
  /\ postScanToAPI (answering (ok_response (with_warning []))) sample_isbn
     <> Returns (mkResult true (warning (with_warning [])) (Some None)).
Proof.
  split; [reflexivity|].
  split; [vm_compute; reflexivity|]. vm_compute. discriminate.
Qed.

(** C6, amended.  For every answer with an HTTP success status,
    [success: true] and a non-empty [warning], the client returns a
    result with [success] true, the warning as its message and [null]
    as its book, whatever book the answer carried. *)
Theorem partial_success_mapping (env : Env) (isbn : jsstring)
    (response : Response) (data : ScanResponse) (w : jsstring) :
  answered env isbn response data ->
  ok response = true ->
  success data = true ->
  warning data = Some w ->
  w <> [] ->
  postScanToAPI env isbn = Returns (mkResult true (Some w) (Some None)).
Proof.
  intros Ha Hok Hs Hw Hne. rewrite (postScanToAPI_answered _ _ _ _ Ha).
  now apply interpret_warning.
Qed.

Lemma partial_success_mapping_witness :
  postScanToAPI
    (answering (ok_response (with_warning (lit "Book metadata not found"))))
    sample_isbn
  = Returns (mkResult true (Some (lit "Book metadata not found"))
                      (Some None)).
Proof.
  apply (partial_success_mapping
           (answering
              (ok_response (with_warning (lit "Book metadata not found"))))
           sample_isbn
           (ok_response (with_warning (lit "Book metadata not found")))
           (with_warning (lit "Book metadata not found"))
           (lit "Book metadata not found")).
  - split; reflexivity.
  - reflexivity.
  - reflexivity.
  - reflexivity.
  - discriminate.
Defined.

(** C7, as stated, fails.  On a 404 whose body names no code and no
    error, the message is not the status text but the status text after
    the words [Server error: ]; on a 500 whose [error] is the empty
    string the message is again built from the status text, not the
    server's (empty) message; and on a 502 whose body is not JSON the
    body is parsed before the status is looked at, so the message is
    the parser's. *)
Lemma status_text_is_prefixed :
  postScanToAPI
    (answering (mkHttp false (lit "Not Found") (Returns no_error_body)))
    sample_isbn
  = Returns (mkResult false (Some (lit "Server error: Not Found")) None)
  /\ lit "Server error: Not Found" <> lit "Not Found"
  /\ postScanToAPI
       (answering (mkHttp false (lit "Internal Server Error")
                          (Returns empty_error_body)))
       sample_isbn
     = Returns (mkResult false
                  (Some (lit "Server error: Internal Server Error")) None)
  /\ postScanToAPI
       (answering (mkHttp false (lit "Bad Gateway") (Throws not_json)))
       sample_isbn
     = Returns (mkResult false
                  (Some (lit "JSON Parse error: Unexpected token: <")) None).
Proof.
  split; [vm_compute; reflexivity|].
  split; [vm_compute; discriminate|].
  split; vm_compute; reflexivity.
Qed.

(** C7, amended.  For every HTTP error answer the client returns a
    failure.  When the body parses, the error code decides the message:
    [INVALID_ISBN] gives the not-a-valid-ISBN message, [MISSING_ISBN]
    gives [ISBN is required], and any other code, or none, gives the
    server's [error] when it is present and not empty and otherwise
    [Server error: ] followed by the HTTP status text.  When the body
    does not parse, [response.json()] throws before the status is
    looked at and the message is the one of the [catch] block: the
    network-error message for a [TypeError] whose message contains
    [Network request failed], the exception's own message for any other
    [Error], and [Unknown error occurred] for any other thrown value. *)
Theorem error_code_mapping (env : Env) (isbn : jsstring)
    (response : Response) :
  fetch env (request_of env isbn) = Returns response ->
  ok response = false ->
  exists m,
    postScanToAPI env isbn = Returns (mkResult false (Some m) None)
    /\ (forall data,
          json response = Returns data ->
          (code data = Some (lit "INVALID_ISBN") ->
           m = lit "This barcode is not a valid ISBN. Please scan a book's ISBN barcode.")
          /\ (code data = Some (lit "MISSING_ISBN") ->
              m = lit "ISBN is required")
          /\ (code data <> Some (lit "INVALID_ISBN") ->
              code data <> Some (lit "MISSING_ISBN") ->
              (forall e, error data = Some e -> e <> [] -> m = e)
              /\ (error data = None \/ error data = Some [] ->
                  m = lit "Server error: " ++ statusText response)))
    /\ (forall e,
          json response = Throws e ->
          (forall msg,
             e = ErrorObject TypeError msg ->
             includes msg (lit "Network request failed") = true ->
             m = lit "Network error. Please check your internet connection and try again.")
          /\ (forall cls msg,
                e = ErrorObject cls msg ->
                cls <> TypeError
                \/ includes msg (lit "Network request failed") = false ->
                m = msg)
          /\ (e = NotAnError -> m = lit "Unknown error occurred")).
Proof.
  intros Hf Hok. destruct (json response) as [data|e] eqn:Hj.
  - rewrite (postScanToAPI_answered _ _ _ _ (conj Hf Hj)).
    unfold interpret. rewrite Hok. cbn [negb].
    destruct (code_is data (lit "INVALID_ISBN")) eqn:Hi.
    { apply code_is_true in Hi. eexists. split; [reflexivity|].
      split; [|intros e He; discriminate].
      intros d [= <-]. rewrite Hi.
      split; [reflexivity|]. split; [discriminate|]. congruence. }
    apply code_is_false in Hi.
    destruct (code_is data (lit "MISSING_ISBN")) eqn:Hm.
    { apply code_is_true in Hm. eexists. split; [reflexivity|].
      split; [|intros e He; discriminate].
      intros d [= <-]. rewrite Hm.
      split; [discriminate|]. split; [reflexivity|]. congruence. }
    apply code_is_false in Hm.
    eexists. split; [reflexivity|].
    split; [|intros e He; discriminate].
    intros d [= <-].
    split; [congruence|]. split; [congruence|]. intros _ _. split.
    + intros e He Hne. rewrite He. destruct e; [congruence | reflexivity].
    + intros [He|He]; rewrite He; reflexivity.
  - assert (Ht : transport_throws env isbn e).
    { right. exists response. auto. }
    rewrite (postScanToAPI_throws _ _ _ Ht).
    destruct (catch_message e) as (m & Hr & Hnet & Hown & Hunk).
    exists m. split; [exact Hr|].
    split; [intros d Hd; discriminate|].
    intros e' [= <-]. auto.
Qed.

Lemma error_code_mapping_witness :
  postScanToAPI
    (answering (mkHttp false (lit "Bad Request") (Returns invalid_isbn_body)))
    (lit "123")
  = Returns (mkResult false
       (Some (lit "This barcode is not a valid ISBN. Please scan a book's ISBN barcode."))
       None).
Proof.
  destruct (error_code_mapping
              (answering (mkHttp false (lit "Bad Request")
                                 (Returns invalid_isbn_body)))
              (lit "123")
              (mkHttp false (lit "Bad Request") (Returns invalid_isbn_body)))
    as (m & Hr & Hdata & _).
  - reflexivity.
  - reflexivity.
  - destruct (Hdata invalid_isbn_body eq_refl) as (Hinv & _).
    rewrite Hr, (Hinv eq_refl). reflexivity.
Defined.

(** C8, as stated, fails.  The server answers with a body that is not
    JSON, so [response.json()] throws a [SyntaxError]: the client returns
    a failure whose message is the exception's own message, not the
    network-error message. *)
Lemma json_failure_is_not_network_error :
  transport_throws (answering (mkHttp true (lit "OK") (Throws not_json)))
                   sample_isbn not_json
  /\ postScanToAPI (answering (mkHttp true (lit "OK") (Throws not_json)))
                   sample_isbn
     = Returns (mkResult false
                  (Some (lit "JSON Parse error: Unexpected token: <")) None)
  /\ postScanToAPI (answering (mkHttp true (lit "OK") (Throws not_json)))
                   sample_isbn
     <> Returns (mkResult false
          (Some (lit "Network error. Please check your internet connection and try again."))
          None).
Proof.
  split.
  - right. eexists. split; reflexivity.
  - split; [vm_compute; reflexivity | vm_compute; discriminate].
Qed.

(** C8, amended.  Whenever [fetch] or [response.json()] throws, the
    client returns a failure.  Its message is the network-error message
    that invites a retry when the exception is a [TypeError] whose
    message contains [Network request failed]; for any other [Error] it
    is the exception's own message; and for a thrown value that is not
    an [Error] it is [Unknown error occurred]. *)
Theorem network_error_mapping (env : Env) (isbn : jsstring) (e : Thrown) :
  transport_throws env isbn e ->
  exists m,
    postScanToAPI env isbn = Returns (mkResult false (Some m) None)
    /\ (forall msg,
          e = ErrorObject TypeError msg ->
          includes msg (lit "Network request failed") = true ->
          m = lit "Network error. Please check your internet connection and try again.")
    /\ (forall cls msg,
          e = ErrorObject cls msg ->
          cls <> TypeError
          \/ includes msg (lit "Network request failed") = false ->
          m = msg)
    /\ (e = NotAnError -> m = lit "Unknown error occurred").
Proof.
  intro Ht. rewrite (postScanToAPI_throws _ _ _ Ht).
  unfold postScanToAPI_catch.
  destruct e as [cls msg|];
    cbn [instanceof_TypeError instanceof_Error error_message andb].
  - destruct cls; cbn [andb].
    + destruct (includes msg (lit "Network request failed")) eqn:Hi;
        eexists; (split; [reflexivity|]); repeat split; try discriminate.
      * intros ? ? ? [?|?]; congruence.
      * intros msg' [= <-]. congruence.
      * intros cls' msg' [= <- <-] _. reflexivity.
    + eexists. split; [reflexivity|]. repeat split; try discriminate.
      intros cls' msg' [= <- <-] _. reflexivity.
    + eexists. split; [reflexivity|]. repeat split; try discriminate.
      intros cls' msg' [= <- <-] _. reflexivity.
  - eexists. split; [reflexivity|]. repeat split; discriminate.
Qed.

Lemma network_error_mapping_witness :
  postScanToAPI (failing no_network) sample_isbn
  = Returns (mkResult false
       (Some (lit "Network error. Please check your internet connection and try again."))
       None).
Proof.
  destruct (network_error_mapping (failing no_network) sample_isbn no_network)
    as (m & Hr & Hnet & _).
  - left. reflexivity.
  - rewrite Hr, (Hnet _ eq_refl eq_refl). reflexivity.
Defined.

(** C9.  For every ISBN and every behaviour of the device, the network
    and the server (an answer of any status and shape, or an exception
    at any point), [postScanToAPI] returns: it never throws.  The result
    carries a success flag and a message, and it is either a failure
    without a book or a success whose book is a book or [null]. *)
Theorem postScanToAPI_total (env : Env) (isbn : jsstring) :
  exists flag m b,
    postScanToAPI env isbn = Returns (mkResult flag (Some m) b)
    /\ (flag = false /\ b = None \/ flag = true /\ exists bk, b = Some bk).
Proof.
  unfold postScanToAPI. rewrite postScanToAPI_try_fetch.
  assert (Hcatch : forall e, exists m,
             postScanToAPI_catch e = Returns (mkResult false (Some m) None)).
  { intro e. unfold postScanToAPI_catch. destruct (_ && _); eauto. }
  destruct (fetch env (request_of env isbn)) as [response|e];
    cbn [bind try_catch].
  - destruct (json response) as [data|e]; cbn [bind try_catch].
    + unfold interpret.
      destruct (negb (ok response)), (code_is data (lit "INVALID_ISBN")),
        (code_is data (lit "MISSING_ISBN")), (success data);
        cbn [try_catch]; eauto 10;
        destruct (warning data) as [w|]; cbn; eauto 10;
        destruct w; cbn; eauto 10.
    + destruct (Hcatch e) as [m ->]. eauto 10.
  - destruct (Hcatch e) as [m ->]. eauto 10.
Qed.

End ApiClaims.

(* ================================================================== *)
(** * ManualEntryModal: messages, normal forms and separators *)
(* ================================================================== *)

Section ManualEntryProperties.

Import ManualEntryModal.

Lemma truthy_trim (s : jsstring) :
  truthy (trim s) = negb (forallb is_whitespace s).
Proof.
  destruct (forallb is_whitespace s) eqn:E.
  - apply trim_nil in E. now rewrite E.
  - destruct (trim s) eqn:Et; [|reflexivity].
    apply trim_nil in Et. congruence.
Qed.

Lemma clean_app (a b : jsstring) : clean (a ++ b) = clean a ++ clean b.
Proof. unfold clean, replace_class. apply flat_map_app. Qed.

Lemma clean_fixed (s : jsstring) :
  forallb (fun c => negb (separator c)) s = true -> clean s = s.
Proof.
  induction s as [|c s IH]; [reflexivity|]. intro H. simpl in H.
  apply andb_true_iff in H as [Hc Hs]. rewrite clean_cons.
  apply negb_true_iff in Hc. rewrite Hc. f_equal. auto.
Qed.

Lemma clean_idempotent (s : jsstring) : clean (clean s) = clean s.
Proof. apply clean_fixed, clean_no_separator. Qed.

(** X1.  Which message [handleSubmit] leaves in the modal.  A text of
    nothing but whitespace (the empty text included) asks for an ISBN;
    any other text whose stripped length is neither 10 nor 13, a text
    of hyphens only for instance, gets the length message; a text of
    the right length with a character other than a digit or an X gets
    the digits message; in all three cases the text stays and nothing
    is submitted.  Otherwise the stripped text is submitted and the
    modal is emptied. *)
Theorem handleSubmit_messages (m : ModalState) :
  let stripped := clean (isbn m) in
  (forallb is_whitespace (isbn m) = true ->
   handleSubmit m = (mkModal (isbn m) (lit "Please enter an ISBN"), None))
  /\ (forallb is_whitespace (isbn m) = false ->
      List.length stripped <> 10 -> List.length stripped <> 13 ->
      handleSubmit m
      = (mkModal (isbn m) (lit "ISBN must be 10 or 13 digits"), None))
  /\ (List.length stripped = 10 \/ List.length stripped = 13 ->
      forallb Spec.digit_X_x stripped = false ->
      handleSubmit m
      = (mkModal (isbn m) (lit "ISBN must contain only digits"), None))
  /\ (List.length stripped = 10 \/ List.length stripped = 13 ->
      forallb Spec.digit_X_x stripped = true ->
      handleSubmit m = (mkModal [] [], Some stripped)).
Proof.
  intro stripped. unfold handleSubmit. rewrite truthy_trim, negb_involutive.
  assert (Hlen : List.length stripped = 10 \/ List.length stripped = 13 ->
                 forallb is_whitespace (isbn m) = false).
  { intro H. destruct (forallb is_whitespace (isbn m)) eqn:E; [|reflexivity].
    apply clean_whitespace in E. subst stripped. rewrite E in H.
    simpl in H. lia. }
  unfold validateISBN. cbv zeta. fold stripped.
  rewrite test_only_digits_or_X.
  split; [|split; [|split]].
  - intros ->. reflexivity.
  - intros -> H10 H13. apply Nat.eqb_neq in H10, H13.
    rewrite H10, H13. reflexivity.
  - intros Hl Hd. rewrite (Hlen Hl), Hd, andb_false_r.
    destruct Hl as [Hl|Hl]; rewrite Hl; reflexivity.
  - intros Hl Hd. rewrite (Hlen Hl), Hd, andb_true_r.
    assert (Ht : truthy stripped = true).
    { destruct stripped; [simpl in Hl; lia | reflexivity]. }
    rewrite Ht. destruct Hl as [Hl|Hl]; rewrite Hl; reflexivity.
Qed.

Lemma handleSubmit_messages_witness :
  handleSubmit (mkModal (lit "----") [])
  = (mkModal (lit "----") (lit "ISBN must be 10 or 13 digits"), None).
Proof.
  refine (proj1 (proj2 (handleSubmit_messages (mkModal (lit "----") [])))
                _ _ _).
  - reflexivity.
  - vm_compute. discriminate.
  - vm_compute. discriminate.
Defined.

(** X2.  A code that [handleSubmit] has submitted is a normal form: typed
    back in, with any error left in the modal, it is submitted again
    and comes out unchanged. *)
Theorem submitted_code_resubmits (m : ModalState) (c e : jsstring) :
  snd (handleSubmit m) = Some c ->
  snd (handleSubmit (mkModal c e)) = Some c.
Proof.
  rewrite !handleSubmit_submits. cbn [isbn].
  destruct ((_ || _) && _) eqn:Hc; [|discriminate].
  intros [= <-]. rewrite clean_idempotent, Hc. reflexivity.
Qed.

Lemma submitted_code_resubmits_witness :
  snd (handleSubmit (mkModal (lit "9780134670942") (lit "old error")))
  = Some (lit "9780134670942").
Proof.
  apply (submitted_code_resubmits
           (mkModal (lit " 978-0-13-467094-2 ") [])).
  reflexivity.
Defined.

(** X3.  Hyphens and whitespace carry no information: putting one anywhere
    into the text, or taking one out, changes neither whether the text
    is submitted nor the code that is submitted. *)
Theorem separators_are_ignored (a b e e' : jsstring) (c : code_unit) :
  separator c = true ->
  snd (handleSubmit (mkModal (a ++ c :: b) e))
  = snd (handleSubmit (mkModal (a ++ b) e')).
Proof.
  intro Hc. rewrite !handleSubmit_submits. cbn [isbn].
  assert (H : clean (a ++ c :: b) = clean (a ++ b)).
  { rewrite !clean_app, clean_cons, Hc. reflexivity. }
  rewrite H. reflexivity.
Qed.

Lemma separators_are_ignored_witness :
  snd (handleSubmit (mkModal (lit "978-0134670942") []))
  = snd (handleSubmit (mkModal (lit "9780134670942") [])).
Proof.
  apply (separators_are_ignored (lit "978") (lit "0134670942") [] [] hyphen).
  reflexivity.
Defined.

End ManualEntryProperties.

(* ================================================================== *)
(** * textbookService: loading and looking up *)
(* ================================================================== *)

Section TextbookProperties.

Import TextbookService.

Lemma has_true (set : list jsstring) (x : jsstring) :
  has set x = true <-> In x set.
Proof.
  unfold has. rewrite existsb_exists. split.
  - intros (y & Hin & Heq). apply streq_eq in Heq. now subst.
  - intro Hin. exists x. split; [assumption | apply streq_refl].
Qed.

(** X4.  The list is loaded once: whatever a later call of
    [loadTextbookISBNs] is given, it leaves the store of the first call
    as it is. *)
Theorem first_load_wins (first later : option (list jsstring)) (st : Store) :
  loadTextbookISBNs later (loadTextbookISBNs first st)
  = loadTextbookISBNs first st.
Proof.
  unfold loadTextbookISBNs. destruct (isLoaded st) eqn:E.
  - now rewrite E.
  - reflexivity.
Qed.

(** X5.  After the first load, an ISBN is a textbook exactly when, stripped
    of hyphens and whitespace, it equals some entry of the file trimmed
    at both ends; before the load, and when the file has no [isbns],
    nothing is a textbook. *)
Theorem isTextbook_after_load (data : list jsstring) (isbn : jsstring) :
  (isTextbook (loadTextbookISBNs (Some data) initial) isbn = true
   <-> exists entry,
         In entry data /\ trim entry = ManualEntryModal.clean isbn)
  /\ isTextbook initial isbn = false
  /\ isTextbook (loadTextbookISBNs None initial) isbn = false.
Proof.
  split; [|split; reflexivity].
  unfold isTextbook, loadTextbookISBNs, initial.
  cbn [isLoaded textbookISBNs negb].
  change (replace_class ManualEntryModal.separator [] isbn)
    with (ManualEntryModal.clean isbn).
  rewrite has_true, in_map_iff. split.
  - intros (entry & Heq & Hin). eauto.
  - intros (entry & Hin & Heq). eauto.
Qed.

(** X6.  An entry of the file that still holds a hyphen or whitespace after
    trimming is dead: no query matches it, however the query is
    written, so the answers are those of the file without it. *)
Theorem hyphenated_entry_is_dead (before after : list jsstring)
    (entry isbn : jsstring) :
  existsb ManualEntryModal.separator (trim entry) = true ->
  isTextbook (loadTextbookISBNs (Some (before ++ entry :: after)) initial)
             isbn
  = isTextbook (loadTextbookISBNs (Some (before ++ after)) initial) isbn.
Proof.
  intro Hsep. unfold isTextbook, loadTextbookISBNs, has. cbn.
  change (replace_class ManualEntryModal.separator [] isbn)
    with (ManualEntryModal.clean isbn).
  rewrite !map_app, !existsb_app. cbn. f_equal.
  assert (Hne : streq (ManualEntryModal.clean isbn) (trim entry) = false).
  { apply streq_neq. intro Heq. rewrite <- Heq in Hsep.
    pose proof (clean_no_separator isbn) as Hno.
    apply existsb_exists in Hsep as (c & Hin & Hc).
    rewrite forallb_forall in Hno. specialize (Hno c Hin).
    rewrite Hc in Hno. discriminate. }
  now rewrite Hne.
Qed.

Lemma hyphenated_entry_is_dead_witness :
  isTextbook
    (loadTextbookISBNs (Some [lit "978-0-13-467094-2"]) initial)
    (lit "978-0-13-467094-2")
  = isTextbook (loadTextbookISBNs (Some []) initial)
               (lit "978-0-13-467094-2").
Proof.
  apply (hyphenated_entry_is_dead [] [] (lit "978-0-13-467094-2")).
  reflexivity.
Defined.

(** X7.  The lookup does not care how the query is hyphenated or spaced. *)
Theorem isTextbook_ignores_separators (st : Store) (a b : jsstring)
    (c : code_unit) :
  ManualEntryModal.separator c = true ->
  isTextbook st (a ++ c :: b) = isTextbook st (a ++ b)
  /\ getBookType st (a ++ c :: b) = getBookType st (a ++ b).
Proof.
  intro Hc.
  assert (H : isTextbook st (a ++ c :: b) = isTextbook st (a ++ b)).
  { unfold isTextbook. destruct (negb (isLoaded st)); [reflexivity|].
    change (replace_class ManualEntryModal.separator [])
      with ManualEntryModal.clean.
    now rewrite !clean_app, clean_cons, Hc. }
  split; [exact H|]. unfold getBookType. now rewrite H.
Qed.

Lemma isTextbook_ignores_separators_witness :
  isTextbook (loadTextbookISBNs (Some [lit "9780134670942"]) initial)
             (lit "978 0134670942")
  = isTextbook (loadTextbookISBNs (Some [lit "9780134670942"]) initial)
               (lit "9780134670942").
Proof.
  refine (proj1 (isTextbook_ignores_separators
                   (loadTextbookISBNs (Some [lit "9780134670942"]) initial)
                   (lit "978") (lit "0134670942") 32%N _)).
  reflexivity.
Defined.

End TextbookProperties.

(* ================================================================== *)
(** * services/api.ts: scanner id, request and the success branches *)
(* ================================================================== *)

Section ApiProperties.

Import Api.

Lemma string_of_uint_digits (d : Decimal.uint) :
  forallb is_digit (lit (NilEmpty.string_of_uint d)) = true.
Proof. induction d; simpl; auto. Qed.

Lemma of_number_digits (n : N) :
  of_number n <> [] /\ forallb is_digit (of_number n) = true.
Proof.
  unfold of_number, NilZero.string_of_uint.
  destruct (N.to_uint n) eqn:E;
    try (split; [discriminate | apply (string_of_uint_digits (_ u))]).
  split; [discriminate | reflexivity].
Qed.

Lemma of_uint_acc_value (d : Decimal.uint) (acc : positive) :
  N.pos (Pos.of_uint_acc d acc)
  = fold_left (fun a c => (a * 10 + (c - 48))%N)
              (lit (NilEmpty.string_of_uint d)) (N.pos acc).
Proof.
  revert acc. unfold lit.
  induction d; intro acc; [reflexivity|..];
    cbn [Pos.of_uint_acc NilEmpty.string_of_uint list_ascii_of_string map
         fold_left];
    rewrite IHd; f_equal;
    match goal with
    | |- context [N_of_ascii ?a] =>
        let v := eval vm_compute in (N_of_ascii a) in
        change (N_of_ascii a) with v
    end; lia.
Qed.

Lemma of_uint_value (d : Decimal.uint) :
  Pos.of_uint d = Sessions.digits_value (lit (NilEmpty.string_of_uint d)).
Proof.
  unfold Sessions.digits_value.
  induction d; [reflexivity|..];
    cbn [Pos.of_uint NilEmpty.string_of_uint];
    try rewrite of_uint_acc_value; try rewrite IHd;
    unfold lit; cbn [list_ascii_of_string map fold_left]; f_equal.
Qed.

(** [of_number] writes its number in decimal. *)
Lemma of_number_value (n : N) : Sessions.digits_value (of_number n) = n.
Proof.
  rewrite <- (DecimalN.Unsigned.of_to n) at 2.
  unfold of_number, NilZero.string_of_uint, N.of_uint.
  destruct (N.to_uint n) eqn:E; try apply eq_sym, (of_uint_value (_ u)).
  destruct n; [discriminate|]. simpl in E.
  exfalso. revert E. apply DecimalPos.Unsigned.to_uint_nonnil.
Qed.

(** X8.  [getScannerId] never throws.  It resolves to the identifier of the
    device when the device gives one, and otherwise to [scanner-]
    followed by the current time written in decimal: a non-empty string
    of digits whose value is [Date.now()]. *)
Theorem getScannerId_fallback (env : Env) :
  exists id,
    getScannerId env = Returns id
    /\ (forall deviceId, getUniqueId env = Returns deviceId -> id = deviceId)
    /\ (forall e,
          getUniqueId env = Throws e ->
          id = lit "scanner-" ++ of_number (Date_now env)
          /\ of_number (Date_now env) <> []
          /\ forallb is_digit (of_number (Date_now env)) = true
          /\ Sessions.digits_value (of_number (Date_now env))
             = Date_now env).
Proof.
  unfold getScannerId. destruct (getUniqueId env) as [d|e]; cbn [bind try_catch].
  - exists d. split; [reflexivity|]. split; [congruence | discriminate].
  - eexists. split; [reflexivity|]. split; [discriminate|].
    intros _ _. split; [reflexivity|].
    split; [apply of_number_digits|].
    split; [apply of_number_digits | apply of_number_value].
Qed.

(** Every call resolves with a result that carries a message. *)
Lemma postScanToAPI_returns (env : Env) (isbn : jsstring) :
  exists r m, postScanToAPI env isbn = Returns r /\ message r = Some m.
Proof.
  unfold postScanToAPI. rewrite postScanToAPI_try_fetch.
  assert (Hcatch : forall e, exists r m,
             postScanToAPI_catch e = Returns r /\ message r = Some m).
  { intro e. unfold postScanToAPI_catch.
    destruct (_ && _); repeat eexists. }
  destruct (fetch env (request_of env isbn)) as [response|e];
    cbn [bind try_catch]; [|apply Hcatch].
  destruct (json response) as [data|e]; cbn [bind try_catch];
    [|apply Hcatch].
  unfold interpret.
  destruct (negb (ok response)), (code_is data (lit "INVALID_ISBN")),
    (code_is data (lit "MISSING_ISBN")), (success data);
    cbn [try_catch]; try (repeat eexists; fail);
    destruct (warning data) as [[|c w]|]; cbn; repeat eexists.
Qed.

(** X9.  A plain success.  When the server answers with an HTTP success
    status and [success: true], and the warning is missing or empty, the
    client reports success with the fixed message [Scan saved
    successfully!]; its book is the book of the answer, or [null] when
    the answer has none. *)
Theorem plain_success_mapping (env : Env) (isbn : jsstring)
    (response : Response) (data : ScanResponse) :
  answered env isbn response data ->
  ok response = true ->
  success data = true ->
  warning data = None \/ warning data = Some [] ->
  postScanToAPI env isbn
  = Returns (mkResult true (Some (lit "Scan saved successfully!"))
                      (Some match book data with
                            | Some (Some b) => Some b
                            | _ => None
                            end)).
Proof.
  intros Ha Hok Hs Hw. rewrite (postScanToAPI_answered _ _ _ _ Ha).
  unfold interpret. rewrite Hok, Hs. cbn [negb].
  destruct Hw as [Hw|Hw]; rewrite Hw; reflexivity.
Qed.

Lemma plain_success_mapping_witness :
  postScanToAPI
    (Samples.answering
       (Samples.ok_response
          (mkResponse true (Some (lit "scan-1"))
                      (Some (Some Samples.sample_book))
                      None None None None)))
    Samples.sample_isbn
  = Returns (mkResult true (Some (lit "Scan saved successfully!"))
                      (Some (Some Samples.sample_book))).
Proof.
  apply (plain_success_mapping _ _
           (Samples.ok_response
              (mkResponse true (Some (lit "scan-1"))
                          (Some (Some Samples.sample_book))
                          None None None None))
           (mkResponse true (Some (lit "scan-1"))
                       (Some (Some Samples.sample_book))
                       None None None None)).
  - split; reflexivity.
  - reflexivity.
  - reflexivity.
  - left. reflexivity.
Defined.

(** X10.  A refusal under an HTTP success status.  When the status is a
    success but the body says [success: false], the client reports a
    failure without a book, whatever book, warning or code the body
    carries; the message is the body's [error] when it is present and
    not empty, and [Unknown error occurred] otherwise. *)
Theorem refused_with_success_status (env : Env) (isbn : jsstring)
    (response : Response) (data : ScanResponse) :
  answered env isbn response data ->
  ok response = true ->
  success data = false ->
  exists m,
    postScanToAPI env isbn = Returns (mkResult false (Some m) None)
    /\ (forall e, error data = Some e -> e <> [] -> m = e)
    /\ (error data = None \/ error data = Some [] ->
        m = lit "Unknown error occurred").
Proof.
  intros Ha Hok Hs. rewrite (postScanToAPI_answered _ _ _ _ Ha).
  unfold interpret. rewrite Hok, Hs. cbn [negb].
  eexists. split; [reflexivity|]. split.
  - intros e He Hne. rewrite He. destruct e; [congruence | reflexivity].
  - intros [He|He]; rewrite He; reflexivity.
Qed.

Lemma refused_with_success_status_witness :
  postScanToAPI
    (Samples.answering
       (Samples.ok_response
          (mkResponse false None (Some (Some Samples.sample_book))
                      (Some (lit "ignored")) None None None)))
    Samples.sample_isbn
  = Returns (mkResult false (Some (lit "Unknown error occurred")) None).
Proof.
  destruct (refused_with_success_status
              (Samples.answering
                 (Samples.ok_response
                    (mkResponse false None (Some (Some Samples.sample_book))
                                (Some (lit "ignored")) None None None)))
              Samples.sample_isbn
              (Samples.ok_response
                 (mkResponse false None (Some (Some Samples.sample_book))
                             (Some (lit "ignored")) None None None))
              (mkResponse false None (Some (Some Samples.sample_book))
                          (Some (lit "ignored")) None None None))
    as (m & Hr & _ & Hm).
  - split; reflexivity.
  - reflexivity.
  - reflexivity.
  - rewrite Hr, (Hm (or_introl eq_refl)). reflexivity.
Defined.

(** X11.  One request decides the call.  The client asks the network one
    thing: a POST of JSON to the configured base URL, or to the
    production URL when none is configured, followed by [/api/scan],
    whose body carries the ISBN exactly as it was given and the scanner
    id.  Two environments that agree on the device, the clock, the
    configuration and the outcome of that request give the same
    result. *)
Theorem one_request_decides (env env' : Env) (isbn : jsstring) :
  getUniqueId env' = getUniqueId env ->
  Date_now env' = Date_now env ->
  API_URL env' = API_URL env ->
  fetch env'
    (mkRequest
       ((if truthy (API_URL env) then API_URL env
         else lit "https://nile-webapp.vercel.app") ++ lit "/api/scan")
       (lit "POST") (lit "application/json")
       (mkBody isbn (scanner_id_of env)))
  = fetch env
      (mkRequest
         ((if truthy (API_URL env) then API_URL env
           else lit "https://nile-webapp.vercel.app") ++ lit "/api/scan")
         (lit "POST") (lit "application/json")
         (mkBody isbn (scanner_id_of env))) ->
  postScanToAPI env' isbn = postScanToAPI env isbn.
Proof.
  intros Hid Hnow Hurl Hfetch. unfold postScanToAPI.
  rewrite !postScanToAPI_try_fetch.
  assert (Hreq : request_of env' isbn = request_of env isbn).
  { unfold request_of, baseUrl, scanner_id_of. now rewrite Hid, Hnow, Hurl. }
  rewrite Hreq.
  change (request_of env isbn) with
    (mkRequest
       ((if truthy (API_URL env) then API_URL env
         else lit "https://nile-webapp.vercel.app") ++ lit "/api/scan")
       (lit "POST") (lit "application/json")
       (mkBody isbn (scanner_id_of env))).
  now rewrite Hfetch.
Qed.

Lemma one_request_decides_witness :
  postScanToAPI
    (mkEnv (Returns (lit "dev-1")) 0 []
       (fun r => if streq (url r) (lit "https://nile-webapp.vercel.app/api/scan")
                 then Throws Samples.no_network
                 else Returns (Samples.ok_response (Samples.with_warning []))))
    Samples.sample_isbn
  = postScanToAPI (Samples.failing Samples.no_network) Samples.sample_isbn.
Proof.
  apply one_request_decides; reflexivity.
Defined.

End ApiProperties.

(* ================================================================== *)
(** * CameraScreen: what a session keeps true *)
(* ================================================================== *)

Section SessionInvariants.

Import TextbookService Api CameraScreen Sessions.

Lemma remove_timer_In (id : nat) (t : nat * N) (l : list (nat * N)) :
  In t (remove_timer id l) -> In t l.
Proof. unfold remove_timer. intro H. now apply filter_In in H. Qed.

Lemma processScannedISBN_screen (isbn : jsstring) (s : State) :
  debounce_invariant s -> screen_invariant s ->
  screen_invariant (processScannedISBN isbn s).
Proof.
  intros [Hf _] Hscr.
  destruct (isProcessing (refs s)) eqn:Hb;
    [now rewrite processScannedISBN_rejects by auto|].
  destruct (streq isbn (lastScannedISBN (refs s))) eqn:Hl.
  { apply streq_eq in Hl. now rewrite processScannedISBN_rejects by auto. }
  destruct Hscr as (_ & _ & Htm & _).
  unfold processScannedISBN. rewrite Hb, Hl. cbn [orb].
  assert (Hnil : in_flight (runtime s) = [])
    by (destruct (in_flight (runtime s)); [reflexivity | discriminate]).
  unfold screen_invariant.
  destruct (scanDebounceTimer (refs s)) as [old|]; cbn; rewrite Hnil;
    (split; [reflexivity|]); (split; [discriminate|]); split.
  - intros id due [[= <- <-]|Hin]; [split; lia|].
    apply remove_timer_In, Htm in Hin. cbn in Hin. lia.
  - intros x [<-|[]]. now left.
  - intros id due [[= <- <-]|Hin]; [split; lia|].
    apply Htm in Hin. lia.
  - intros x [<-|[]]. now left.
Qed.

Lemma step_screen_invariant (e : Event) (s s' : State) :
  debounce_invariant s -> screen_invariant s ->
  step e s = Some s' -> screen_invariant s'.
Proof.
  intros Hinv Hscr Hstep. destruct e; simpl in Hstep.
  - injection Hstep as <-. exact Hscr.
  - injection Hstep as <-. unfold onCodeScanned.
    destruct (_ || _); [exact Hscr|].
    destruct codes as [|code codes]; [exact Hscr|].
    destruct (value code) as [v|]; [|exact Hscr].
    destruct (truthy v); [|exact Hscr].
    now apply processScannedISBN_screen.
  - injection Hstep as <-. exact Hscr.
  - injection Hstep as <-. exact Hscr.
  - injection Hstep as <-. exact Hscr.
  - injection Hstep as <-. unfold manual_submit.
    destruct (ManualEntryModal.handleSubmit (modal s)) as [m [isbn|]];
      [|exact Hscr].
    apply (processScannedISBN_screen isbn
             (set_ui (setShowManualEntry false (ui s)) s)); assumption.
  - injection Hstep as <-. exact Hscr.
  - injection Hstep as <-. destruct Hscr as (Hl & Hn & Htm & Hfl).
    unfold screen_invariant. cbn. repeat split; auto.
    + now apply Htm in H.
    + apply Htm in H. unfold DEBOUNCE_DELAY in *. lia.
  - destruct (timer_due id (runtime s)); [|discriminate].
    injection Hstep as <-. destruct Hscr as (Hl & Hn & Htm & Hfl).
    unfold screen_invariant. cbn. repeat split; auto.
    + apply remove_timer_In in H. now apply Htm in H.
    + apply remove_timer_In in H. now apply Htm in H.
  - destruct (awaited isbn (runtime s)) eqn:Ha; [|discriminate].
    injection Hstep as <-. destruct Hscr as (Hl & Hn & Htm & Hfl).
    destruct Hinv as [Hf _].
    pose proof (awaited_nonempty _ _ Ha) as Hne.
    destruct (isProcessing (refs s)); [|congruence].
    destruct (awaited_singleton _ _ Hf Ha) as [_ Hrm].
    unfold screen_invariant. cbn. rewrite Hrm.
    repeat split; auto; try (now apply Htm in H). intros x [].
Qed.

Lemma reachable_screen_invariant (s : State) :
  reachable s -> debounce_invariant s /\ screen_invariant s.
Proof.
  intros [trace Hrun].
  assert (Hgen : forall s0,
             debounce_invariant s0 /\ screen_invariant s0 ->
             run trace s0 = Some s ->
             debounce_invariant s /\ screen_invariant s).
  { clear Hrun. induction trace as [|e trace IH]; intros s0 H0 Hrun;
      simpl in Hrun.
    - now injection Hrun as <-.
    - destruct (step e s0) as [s1|] eqn:E; [|discriminate].
      apply (IH s1); [|exact Hrun]. destruct H0 as [Hd Hs]. split.
      + eapply step_invariant; eauto.
      + eapply step_screen_invariant; eauto. }
  apply (Hgen initial); [|exact Hrun].
  split; [split; [reflexivity | now left]|].
  unfold screen_invariant. cbn. repeat split; auto; intros; contradiction.
Qed.

(** X12.  In every reachable state [isLoading] equals [isProcessing], and
    [isLoading] is set exactly when a call of [postScanToSupabase] is
    pending. *)
Theorem loading_while_in_flight (s : State) :
  reachable s ->
  isLoading (ui s) = isProcessing (refs s)
  /\ (isLoading (ui s) = true <-> in_flight (runtime s) <> []).
Proof.
  intro Hr. apply reachable_screen_invariant in Hr as [[Hf _] (Hl & _)].
  split; [exact Hl|]. rewrite Hl.
  destruct (isProcessing (refs s)), (in_flight (runtime s));
    simpl in Hf; split; congruence.
Qed.

Lemma loading_while_in_flight_witness :
  isLoading (ui (processScannedISBN Samples.sample_isbn initial)) = true
  <-> in_flight (runtime (processScannedISBN Samples.sample_isbn initial))
      <> [].
Proof.
  refine (proj2 (loading_while_in_flight
                   (processScannedISBN Samples.sample_isbn initial) _)).
  exists [CodesDetected [Samples.first_scan]]. reflexivity.
Defined.

(** X13.  Timers do not pile up: in every reachable state at most one timer
    is pending, it is the one [scanDebounceTimer] holds, its identifier
    has been handed out by [setTimeout], and it is due no later than
    2000 ms from now. *)
Theorem one_pending_timer (s : State) :
  reachable s ->
  List.length (timers (runtime s)) <= 1
  /\ forall id due,
       In (id, due) (timers (runtime s)) ->
       scanDebounceTimer (refs s) = Some id
       /\ id < next_timer (runtime s)
       /\ (due <= clock (runtime s) + 2000)%N.
Proof.
  intro Hr.
  apply reachable_screen_invariant in Hr as [[_ Ht] (_ & _ & Htm & _)].
  split.
  - destruct Ht as [->|(i & d & -> & _)]; simpl; lia.
  - intros id due Hin. destruct (Htm id due Hin) as [Hid Hdue].
    split; [|split; assumption].
    destruct Ht as [Ht|(i & d & Ht & Hi)]; rewrite Ht in Hin.
    + contradiction.
    + destruct Hin as [[= -> ->]|[]]. exact Hi.
Qed.

Lemma one_pending_timer_witness :
  List.length
    (timers (runtime (processScannedISBN Samples.sample_isbn initial)))
  <= 1.
Proof.
  refine (proj1 (one_pending_timer
                   (processScannedISBN Samples.sample_isbn initial) _)).
  exists [CodesDetected [Samples.first_scan]]. reflexivity.
Defined.

(** X14.  A remembered code is always forgotten in time: in every reachable
    state where [lastScannedISBN] is not empty a timer is pending, and
    once 2000 ms have passed that timer can fire, after which
    [lastScannedISBN] is empty and no timer is left. *)
Theorem remembered_code_expires (s : State) :
  reachable s ->
  lastScannedISBN (refs s) <> [] ->
  exists id s1 s2,
    step (TimePasses 2000) s = Some s1
    /\ step (TimerFires id) s1 = Some s2
    /\ lastScannedISBN (refs s2) = []
    /\ timers (runtime s2) = [].
Proof.
  intros Hr Hne.
  apply reachable_screen_invariant in Hr as [[_ Ht] (_ & Hnil & Htm & _)].
  destruct Ht as [Ht|(id & due & Ht & Hid)]; [now apply Hnil in Ht|].
  assert (Hdue : (due <= clock (runtime s) + 2000)%N).
  { apply (Htm id due). rewrite Ht. now left. }
  exists id. eexists. eexists. split; [reflexivity|].
  simpl. unfold timer_due. cbn. rewrite Ht. cbn.
  rewrite Nat.eqb_refl. cbn.
  apply N.leb_le in Hdue. rewrite Hdue. cbn.
  split; [reflexivity|]. split; [reflexivity|].
  unfold remove_timer. cbn. now rewrite Nat.eqb_refl.
Qed.

Lemma remembered_code_expires_witness :
  exists id s1 s2,
    step (TimePasses 2000)
         (processScannedISBN Samples.sample_isbn initial) = Some s1
    /\ step (TimerFires id) s1 = Some s2
    /\ lastScannedISBN (refs s2) = []
    /\ timers (runtime s2) = [].
Proof.
  apply (remembered_code_expires
           (processScannedISBN Samples.sample_isbn initial)).
  - exists [CodesDetected [Samples.first_scan]]. reflexivity.
  - discriminate.
Defined.

End SessionInvariants.

(* ================================================================== *)
(** * CameraScreen: the window, dropped entries, the counter *)
(* ================================================================== *)

Section SessionProperties.

Import TextbookService Api CameraScreen Sessions.

Lemma window_open_ext (c : jsstring) (id : nat) (t : N) (s s' : State) :
  refs s' = refs s -> runtime s' = runtime s ->
  window_open c id t s -> window_open c id t s'.
Proof. unfold window_open. now intros -> ->. Qed.

Lemma window_open_same_code (c : jsstring) (id : nat) (t : N) (s : State) :
  window_open c id t s -> window_open c id t (processScannedISBN c s).
Proof.
  intros [Hc Hw].
  destruct (isProcessing (refs s)) eqn:Hb;
    [rewrite processScannedISBN_rejects by auto; now split|].
  destruct (streq c (lastScannedISBN (refs s))) eqn:Hl.
  { apply streq_eq in Hl. rewrite processScannedISBN_rejects by auto.
    now split. }
  apply streq_neq in Hl.
  destruct (processScannedISBN_accepts c s Hb Hl) as (_ & _ & _ & Hck & _).
  unfold window_open. rewrite Hck. split; [exact Hc|].
  intro Hlt. destruct (Hw Hlt) as [Hlast _]. congruence.
Qed.

Lemma window_open_step (c : jsstring) (id : nat) (t : N) (e : Event)
    (s s' : State) :
  window_open c id t s ->
  match handed_over e s with Some v => streq v c | None => true end = true ->
  step e s = Some s' ->
  window_open c id t s'.
Proof.
  intros Hw Hq Hstep. pose proof Hw as [Hc Hopen].
  destruct e; simpl in Hstep, Hq.
  - injection Hstep as <-. exact Hw.
  - injection Hstep as <-. unfold onCodeScanned.
    destruct (negb (isActive (ui s))); cbn [orb]; [exact Hw|].
    destruct codes as [|code codes]; [exact Hw|]. cbn.
    destruct (value code) as [v|]; [|exact Hw].
    destruct (truthy v); [|exact Hw].
    apply streq_eq in Hq. subst v. now apply window_open_same_code.
  - injection Hstep as <-. exact Hw.
  - injection Hstep as <-. exact Hw.
  - injection Hstep as <-. exact Hw.
  - injection Hstep as <-. unfold manual_submit.
    destruct (ManualEntryModal.handleSubmit (modal s)) as [m [v|]];
      simpl in Hq; [|exact Hw].
    apply streq_eq in Hq. subst v.
    apply (window_open_ext c id t
             (processScannedISBN c
                (set_ui (setShowManualEntry false (ui s)) s)));
      [reflexivity | reflexivity|].
    apply window_open_same_code.
    now apply (window_open_ext c id t s).
  - injection Hstep as <-. exact Hw.
  - injection Hstep as <-. unfold window_open. cbn. split; [lia|].
    intro Hlt. apply Hopen. lia.
  - destruct (timer_due id0 (runtime s)) eqn:Hd; [|discriminate].
    injection Hstep as <-. unfold window_open. cbn. split; [exact Hc|].
    intro Hlt. exfalso. destruct (Hopen Hlt) as [_ Ht].
    unfold timer_due in Hd. rewrite Ht in Hd. cbn in Hd.
    rewrite orb_false_r in Hd. apply andb_true_iff in Hd as [_ Hd].
    apply N.leb_le in Hd. lia.
  - destruct (awaited isbn (runtime s)); [|discriminate].
    injection Hstep as <-. exact Hw.
Qed.

Lemma window_open_run (c : jsstring) (id : nat) (t : N)
    (trace : list Event) :
  forall s s',
    window_open c id t s ->
    no_other_code c trace s = true ->
    run trace s = Some s' ->
    window_open c id t s'.
Proof.
  induction trace as [|e trace IH]; intros s s' Hw Hq Hrun; simpl in *.
  - now injection Hrun as <-.
  - apply andb_true_iff in Hq as [He Hq].
    destruct (step e s) as [s1|] eqn:E; [|discriminate].
    apply (IH s1 s'); auto. eapply window_open_step; eauto.
Qed.

(** X15.  The debounce window.  Once a code has been submitted, and as long
    as no other code is handed to [processScannedISBN], the same code is
    refused for the next 2000 ms: whatever else happens in between (the
    same barcode seen again, a detection without a value, a manual
    entry that is refused or repeats the code, the call settling, sheets
    opening and closing, time passing, the timer trying to fire),
    [lastScannedISBN] is still that code and handing it over again
    changes nothing. *)
Theorem debounce_window (s s2 : State) (c : jsstring) (trace : list Event) :
  reachable s ->
  submits c s (processScannedISBN c s) ->
  no_other_code c trace (processScannedISBN c s) = true ->
  run trace (processScannedISBN c s) = Some s2 ->
  (clock (runtime s2) < clock (runtime s) + 2000)%N ->
  lastScannedISBN (refs s2) = c /\ processScannedISBN c s2 = s2.
Proof.
  intros Hr Hs Hq Hrun Hlt.
  apply reachable_invariant in Hr as [_ Ht].
  apply submits_iff in Hs as [Hb Hl].
  destruct (processScannedISBN_accepts c s Hb Hl)
    as (_ & Hrf & Htm & Hck & _).
  assert (Hw : window_open c (next_timer (runtime s)) (clock (runtime s))
                 (processScannedISBN c s)).
  { split; [rewrite Hck; lia|]. intros _. rewrite Hrf. split; [reflexivity|].
    rewrite Htm. unfold DEBOUNCE_DELAY. f_equal.
    destruct Ht as [Ht|(i & due & Ht & Hi)]; rewrite Ht.
    - now destruct (scanDebounceTimer (refs s)).
    - rewrite Hi. apply remove_timer_same. }
  destruct (window_open_run _ _ _ trace _ _ Hw Hq Hrun) as [_ Hopen].
  destruct (Hopen Hlt) as [Hlast _].
  split; [exact Hlast|]. apply processScannedISBN_rejects. now right.
Qed.

Lemma debounce_window_witness :
  exists s2,
    run failed_then_rescan (processScannedISBN Samples.sample_isbn initial)
    = Some s2
    /\ lastScannedISBN (refs s2) = Samples.sample_isbn
    /\ processScannedISBN Samples.sample_isbn s2 = s2.
Proof.
  eexists. split; [reflexivity|].
  refine (debounce_window initial _ Samples.sample_isbn failed_then_rescan
            _ _ _ _ _).
  - exists []. reflexivity.
  - reflexivity.
  - reflexivity.
  - reflexivity.
  - reflexivity.
Defined.

Lemma handleSubmit_resets (m : ManualEntryModal.ModalState) (c : jsstring) :
  snd (ManualEntryModal.handleSubmit m) = Some c ->
  fst (ManualEntryModal.handleSubmit m) = ManualEntryModal.mkModal [] [].
Proof.
  unfold ManualEntryModal.handleSubmit.
  destruct (negb _); [discriminate|].
  destruct (ManualEntryModal.validateISBN _ m) as [[|] m1];
    [reflexivity | discriminate].
Qed.

(** X16.  A debounced manual entry is dropped without a word.  When the
    typed ISBN passes validation but a call is pending, or the code is
    the remembered one, pressing Submit submits nothing: the sheet
    closes, the typed text is gone and no error is set; the camera is
    left as it was (switched off, when the sheet had been opened by
    [handleOpenManualEntry]) and the confirmation sheet and the message
    of the last result are not touched. *)
Theorem debounced_manual_entry_is_dropped (s : State) (isbn : jsstring) :
  snd (ManualEntryModal.handleSubmit (modal s)) = Some isbn ->
  isProcessing (refs s) = true \/ isbn = lastScannedISBN (refs s) ->
  in_flight (runtime (manual_submit s)) = in_flight (runtime s)
  /\ modal (manual_submit s) = ManualEntryModal.mkModal [] []
  /\ showManualEntry (ui (manual_submit s)) = false
  /\ isActive (ui (manual_submit s)) = isActive (ui s)
  /\ showConfirmModal (ui (manual_submit s)) = showConfirmModal (ui s)
  /\ scanMessage (ui (manual_submit s)) = scanMessage (ui s)
  /\ refs (manual_submit s) = refs s
  /\ isActive (ui (manual_submit (handleOpenManualEntry s))) = false.
Proof.
  intros Hsub Hdeb.
  pose proof (handleSubmit_resets _ _ Hsub) as Hm.
  assert (Hopen : manual_submit (handleOpenManualEntry s)
                  = set_modal (ManualEntryModal.mkModal [] [])
                      (set_ui (setShowManualEntry false
                                 (ui (handleOpenManualEntry s)))
                              (handleOpenManualEntry s))).
  { unfold manual_submit. change (modal (handleOpenManualEntry s))
      with (modal s).
    destruct (ManualEntryModal.handleSubmit (modal s)) as [m sub].
    simpl in Hsub, Hm. subst. unfold handleManualSubmit.
    rewrite processScannedISBN_rejects; [reflexivity|exact Hdeb]. }
  rewrite Hopen.
  unfold manual_submit.
  destruct (ManualEntryModal.handleSubmit (modal s)) as [m sub].
  simpl in Hsub, Hm. subst. unfold handleManualSubmit.
  rewrite processScannedISBN_rejects by exact Hdeb.
  cbn. repeat split.
Qed.

(** X17.  A manual entry that is not debounced goes the way of a scan.  When
    the typed ISBN passes validation, no call is pending and the code
    is not the remembered one, pressing Submit hands the stripped code
    to the submission client, closes and empties the entry sheet, and
    opens the confirmation sheet with its spinner for that code, with
    the camera switched off and the book type looked up. *)
Theorem manual_entry_is_submitted (s : State) (isbn : jsstring) :
  snd (ManualEntryModal.handleSubmit (modal s)) = Some isbn ->
  isProcessing (refs s) = false ->
  isbn <> lastScannedISBN (refs s) ->
  submits isbn s (manual_submit s)
  /\ isbn = ManualEntryModal.clean (ManualEntryModal.isbn (modal s))
  /\ modal (manual_submit s) = ManualEntryModal.mkModal [] []
  /\ showManualEntry (ui (manual_submit s)) = false
  /\ showConfirmModal (ui (manual_submit s)) = true
  /\ isLoading (ui (manual_submit s)) = true
  /\ isActive (ui (manual_submit s)) = false
  /\ scannedISBN (ui (manual_submit s)) = Some isbn
  /\ bookType (ui (manual_submit s)) = getBookType (textbooks s) isbn
  /\ lastScannedISBN (refs (manual_submit s)) = isbn.
Proof.
  intros Hsub Hb Hl.
  pose proof (handleSubmit_resets _ _ Hsub) as Hm.
  assert (Hclean : isbn
                   = ManualEntryModal.clean (ManualEntryModal.isbn (modal s))).
  { rewrite handleSubmit_submits in Hsub.
    destruct ((_ || _) && _); congruence. }
  unfold manual_submit, submits.
  destruct (ManualEntryModal.handleSubmit (modal s)) as [m sub].
  simpl in Hsub, Hm. subst m sub. unfold handleManualSubmit.
  apply streq_neq in Hl.
  unfold processScannedISBN.
  cbn [refs set_ui]. rewrite Hb, Hl. cbn [orb].
  split; [|split; [exact Hclean|]];
    destruct (scanDebounceTimer (refs s)); cbn; repeat split.
Qed.

Lemma manual_entry_is_submitted_witness :
  submits (lit "9780134670942")
          (Samples.typed (lit "978-0-13-467094-2"))
          (manual_submit (Samples.typed (lit "978-0-13-467094-2"))).
Proof.
  refine (proj1 (manual_entry_is_submitted
                   (Samples.typed (lit "978-0-13-467094-2"))
                   (lit "9780134670942") _ _ _)).
  - reflexivity.
  - reflexivity.
  - discriminate.
Defined.

Lemma debounced_manual_entry_is_dropped_witness :
  in_flight
    (runtime
       (manual_submit
          (set_modal (ManualEntryModal.mkModal (lit "9780262033848") [])
                     (processScannedISBN Samples.sample_isbn initial))))
  = [Samples.sample_isbn].
Proof.
  refine (proj1 (debounced_manual_entry_is_dropped
                   (set_modal
                      (ManualEntryModal.mkModal (lit "9780262033848") [])
                      (processScannedISBN Samples.sample_isbn initial))
                   (lit "9780262033848") _ _)).
  - reflexivity.
  - left. reflexivity.
Defined.

(** X18.  The counter is the number of successes: at any point of a session
    [scanCount] has grown by the number of calls that settled so far
    with a result whose [success] is true. *)
Theorem scanCount_counts_successes (trace : list Event) (s s' : State) :
  run trace s = Some s' ->
  scanCount (ui s') = scanCount (ui s) + successes trace.
Proof.
  revert s. induction trace as [|e trace IH]; intros s Hrun; simpl in Hrun.
  - injection Hrun as <-. simpl. lia.
  - destruct (step e s) as [s1|] eqn:E; [|discriminate].
    rewrite (IH s1 Hrun), (scanCount_step e s s1 E).
    destruct e; simpl; lia.
Qed.

Lemma scanCount_counts_successes_witness :
  exists s', run warned_session initial = Some s' /\ scanCount (ui s') = 1.
Proof.
  eexists. split; [reflexivity|].
  exact (scanCount_counts_successes warned_session initial _ eq_refl).
Defined.

(** X19.  What the confirmation sheet is given once a call has settled: the
    success flag and the message of the client's own result, and its
    book or [null]; the spinner is off.  Since the client turns every
    exception into a result, the [catch] block of [processScannedISBN]
    never supplies them. *)
Theorem settled_call_shows_client_result (isbn : jsstring) (env : Env)
    (s s' : State) :
  step (SubmissionSettles isbn env) s = Some s' ->
  exists r m,
    postScanToSupabase env isbn = Returns r
    /\ message r = Some m
    /\ scanSuccess (ui s') = result_success r
    /\ scanMessage (ui s') = m
    /\ scannedBook (ui s')
       = match result_book r with Some (Some b) => Some b | _ => None end
    /\ isLoading (ui s') = false
    /\ isProcessing (refs s') = false.
Proof.
  simpl. destruct (awaited isbn (runtime s)); [|discriminate].
  intros [= <-]. unfold postScanToSupabase.
  destruct (postScanToAPI_returns env isbn) as (r & m & Hr & Hm).
  exists r, m. rewrite Hr. split; [reflexivity|]. split; [exact Hm|].
  cbn. unfold on_result.
  destruct (result_success r); cbn; rewrite Hm; cbn;
    repeat split; now destruct m.
Qed.

Lemma settled_call_shows_client_result_witness :
  exists r m,
    postScanToSupabase (Samples.failing Samples.no_network)
                       Samples.sample_isbn = Returns r
    /\ message r = Some m.
Proof.
  destruct (settled_call_shows_client_result Samples.sample_isbn
              (Samples.failing Samples.no_network)
              (processScannedISBN Samples.sample_isbn initial) _ eq_refl)
    as (r & m & Hr & Hm & _).
  exists r, m. split; assumption.
Defined.

End SessionProperties.
